(** * FAIS Minus: verification of [extract_marks.py]

    A shallow embedding of the marks pipeline of [extract_marks.py]
    (load, grade derivation, special grades, integer coercion,
    withdrawal filter, cohort statistics, interim codes, SAS export)
    and theorems on the properties that its specification states.

    The pandas frame [all_marks] is a list of rows in index order; a
    row carries its index label [uid] and the columns the script reads
    or writes.  Python exceptions are the [Raise] results of a small
    error monad.  The float arithmetic of the percentage column is
    IEEE binary64, written out on [Z]. *)

From Stdlib Require Import ZArith String Ascii List Bool Lia DecimalString.
From Stdlib Require DecimalPos DecimalZ.
Import ListNotations.

Open Scope string_scope.
Open Scope Z_scope.

(** ** Python values and exceptions *)

Inductive exn : Type :=
| IndexError
| KeyError (key : string)
| NameError (name : string)
| FileNotFoundError (path : string)
| ValueError.

Inductive result (A : Type) : Type :=
| Ok (a : A)
| Raise (e : exn).

Arguments Ok {A} a.
Arguments Raise {A} e.

Definition bind {A B : Type} (c : result A) (k : A -> result B) : result B :=
  match c with
  | Ok a => k a
  | Raise e => Raise e
  end.

Notation "x <- c ;; k" := (bind c (fun x => k))
  (at level 61, c at next level, right associativity).

(** [str(n)] of a Python int. *)
Definition str_int (n : Z) : string := NilZero.string_of_int (Z.to_int n).

(** [sub in s] on Python strings. *)
Fixpoint contains (sub s : string) : bool :=
  prefix sub s ||
  match s with
  | EmptyString => false
  | String _ rest => contains sub rest
  end.

(** [x in xs] on a list of strings. *)
Definition str_in (x : string) (xs : list string) : bool :=
  existsb (String.eqb x) xs.

(** A cell of a frame column of mixed content: a Python int, a string,
    or pandas' missing value. *)
Inductive cell : Type :=
| Int (z : Z)
| Str (s : string)
| NaN.

(** ** The loader (lines 76-92) *)

(** Line 76: the names of [os.listdir(".")] that contain the marker. *)
Definition possible_sas_exports (listing : list string) : list string :=
  filter (contains "for_SAS") listing.

(** Lines 79-80: [possible_sas_exports[0]], an uncaught [IndexError]
    on the empty list. *)
Definition opening (listing : list string) : result string :=
  match possible_sas_exports listing with
  | [] => Raise IndexError
  | f :: _ => Ok f
  end.

(** One line of the Gradebook export as [pd.read_csv] yields it: the
    columns the script names, and the mark column, which the script
    takes by position ([all_marks.columns[1]]).  Student numbers and
    marks are whole numbers, read as ints; an export with a blank or
    non-numeric cell in either column is not a value of this type. *)
Record RawRow : Type := mkRaw {
  Enrol_Reason : string;
  Student_Number : Z;
  raw_mark : Z;
  raw_First_name : string;
  raw_Last_name : string
}.

(** A row of [all_marks] once the [grade] column exists.  [uid] is the
    index label.  A column is missing ([None], [NaN]) only on a row
    that an assignment to an unknown label has appended. *)
Record Row : Type := mkRow {
  uid : string;
  number : option Z;
  mark : cell;
  First_name : option string;
  Last_name : option string;
  course_code : option string;
  grade : string
}.

Definition set_grade (r : Row) (g : string) : Row :=
  mkRow (uid r) (number r) (mark r) (First_name r) (Last_name r)
        (course_code r) g.

Definition set_mark (r : Row) (m : cell) : Row :=
  mkRow (uid r) (number r) m (First_name r) (Last_name r)
        (course_code r) (grade r).

(** Line 81: [x[0:8]]. *)
Definition course_of (enrol_reason : string) : string :=
  substring 0 8 enrol_reason.

(** Line 82: [f'u{x}']. *)
Definition uid_of (student_number : Z) : string :=
  "u" ++ str_int student_number.

(** [Series.unique()]: the distinct values in order of first
    appearance. *)
Fixpoint unique (xs : list string) : list string :=
  match xs with
  | [] => []
  | x :: rest => x :: filter (fun y => negb (String.eqb y x)) (unique rest)
  end.

(** Line 85. *)
Definition courses_of (raw : list RawRow) : list string :=
  unique (map (fun r => course_of (Enrol_Reason r)) raw).

(** The configuration document.  A scalar of the YAML file is an int
    or a string; an f-string prints either. *)
Inductive yaml : Type :=
| YInt (z : Z)
| YStr (s : string).

Definition str_yaml (y : yaml) : string :=
  match y with
  | YInt z => str_int z
  | YStr s => s
  end.

(** The value under a course's [grades] key: the key may be absent,
    hold nothing ([None]), or hold a mapping from uid to grade code,
    in document order. *)
Inductive grades_entry : Type :=
| GradesAbsent
| GradesNone
| GradesMap (m : list (string * string)).

(** A course entry that carries the scalar keys [type], [term],
    [subject], [catalogue] and [class]; of its keys only [grades] is
    modelled as one that may be missing. *)
Record CourseConfig : Type := mkCourse {
  cfg_type : yaml;
  cfg_term : yaml;
  cfg_subject : yaml;
  cfg_catalogue : yaml;
  cfg_class : yaml;
  cfg_grades : grades_entry
}.

Definition Config : Type := list (string * CourseConfig).

(** What lines 88-92 leave behind: [open] raises on a missing file, a
    [YAMLError] is printed and [config] stays unbound. *)
Inductive config_file : Type :=
| ConfigMissing
| ConfigMalformed
| ConfigParsed (config : Config).

Definition load_config (f : config_file) : result (option Config) :=
  match f with
  | ConfigMissing => Raise (FileNotFoundError "grade_config.yml")
  | ConfigMalformed => Ok None
  | ConfigParsed config => Ok (Some config)
  end.

Fixpoint lookup (c : string) (config : Config) : result CourseConfig :=
  match config with
  | [] => Raise (KeyError c)
  | (k, v) :: rest => if String.eqb k c then Ok v else lookup c rest
  end.

(** [config[c]]. *)
Definition config_at (config : option Config) (c : string)
  : result CourseConfig :=
  match config with
  | None => Raise (NameError "config")
  | Some cfg => lookup c cfg
  end.

(** ** The grade deriver (lines 94-116) *)

Definition generate_grade (set_0_ncn : bool) (mark : Z) : string :=
  if mark =? 0 then
    if set_0_ncn then "NCN" else "N"
  else if mark <=? 44 then "N"
  else if mark <=? 49 then "PX"
  else if mark <=? 59 then "P"
  else if mark <=? 69 then "CR"
  else if mark <=? 79 then "D"
  else "HD".

(** Lines 81-84 and 116: the frame with its derived columns. *)
Definition add_grades (set_0_ncn : bool) (raw : list RawRow) : list Row :=
  map (fun r =>
         mkRow (uid_of (Student_Number r))
               (Some (Student_Number r))
               (Int (raw_mark r))
               (Some (raw_First_name r))
               (Some (raw_Last_name r))
               (Some (course_of (Enrol_Reason r)))
               (generate_grade set_0_ncn (raw_mark r)))
      raw.

(** ** Special grades (lines 119-123) *)

Definition has_uid (u : string) (r : Row) : bool := String.eqb (uid r) u.

(** [all_marks.at[uid, 'grade'] = g].  Every row under the label gets
    the value; a label that the index does not hold is added to it, as
    a new last row whose other columns are missing. *)
Definition at_set_grade (u g : string) (t : list Row) : list Row :=
  if existsb (has_uid u) t
  then map (fun r => if has_uid u r then set_grade r g else r) t
  else t ++ [mkRow u None NaN None None None g].

(** Lines 122-123 for one course's mapping. *)
Definition apply_grades (m : list (string * string)) (t : list Row)
  : list Row :=
  fold_left (fun acc ug => at_set_grade (fst ug) (snd ug) acc) m t.

(** Lines 119-123. *)
Fixpoint add_special_grades (config : option Config) (courses : list string)
         (t : list Row) : result (list Row) :=
  match courses with
  | [] => Ok t
  | c :: rest =>
      cc <- config_at config c ;;
      match cfg_grades cc with
      | GradesAbsent => Raise (KeyError "grades")
      | GradesNone => add_special_grades config rest t
      | GradesMap m => add_special_grades config rest (apply_grades m t)
      end
  end.

(** ** Integer coercion (lines 126-127) *)

(** [astype(int)] on the student numbers: a missing value cannot be
    cast. *)
Fixpoint number_astype_int (t : list Row) : result (list Row) :=
  match t with
  | [] => Ok []
  | r :: rest =>
      match number r with
      | None => Raise ValueError
      | Some _ => rest' <- number_astype_int rest ;; Ok (r :: rest')
      end
  end.

(** [astype(int)] on the mark column, which holds ints and missing
    values at this point; a string would not be a number either. *)
Fixpoint mark_astype_int (t : list Row) : result (list Row) :=
  match t with
  | [] => Ok []
  | r :: rest =>
      match mark r with
      | Int _ => rest' <- mark_astype_int rest ;; Ok (r :: rest')
      | Str _ | NaN => Raise ValueError
      end
  end.

(** ** The withdrawal filter (lines 152-153) *)

Definition grade_is (g : string) (r : Row) : bool := String.eqb (grade r) g.

Definition remove_withdrawn (t : list Row) : list Row :=
  filter (fun r => negb (grade_is "WN" r))
         (filter (fun r => negb (grade_is "WD" r)) t).

(** ** The cohort reporter (lines 130-148 and 158-161) *)

(** A positive binary64 value [mant * 2^(-shift)]; the quotients below
    are normal numbers, [2^52 <= mant <= 2^53]. *)
Record double : Type := mkDouble {
  mant : Z;
  shift : Z
}.

(** The integer nearest to [a / b] for [0 < b], ties to even. *)
Definition rne (a b : Z) : Z :=
  let q := a / b in
  let r := a mod b in
  if 2 * r <? b then q
  else if b <? 2 * r then q + 1
  else if Z.even q then q else q + 1.

(** [a / b] on two positive ints below [2^53]: both convert to
    binary64 exactly, and the division rounds the exact quotient to the
    nearest value of 53 significant bits. *)
Definition true_divide (a b : Z) : double :=
  let s0 := 52 + Z.log2 b - Z.log2 a in
  let s := if 2 ^ 52 * b <=? a * 2 ^ s0 then s0 else s0 + 1 in
  mkDouble (rne (a * 2 ^ s) b) s.

(** The hundredths that [f"{x:.2f}"] prints: the exact binary value
    rounded to two decimal places, ties to even. *)
Definition hundredths (x : double) : Z :=
  rne (100 * mant x) (2 ^ shift x).

Definition two_digits (n : Z) : string :=
  str_int (n / 10) ++ str_int (n mod 10).

(** [h] hundredths in decimal notation with two decimal places. *)
Definition show_2dp (h : Z) : string :=
  str_int (h / 100) ++ "." ++ two_digits (h mod 100).

(** [f"{x:.2f}"]. *)
Definition format_2f (x : double) : string := show_2dp (hundredths x).

(** Line 144. *)
Definition stat_labels : list string :=
  ["HD"; "D"; "CR"; "P"; "PX"; "N"; "NCN"; "DA"; "RP"; "KU"; "WD"; "WN"].

(** [df.grade.value_counts()[g]] where the label occurs; the Series
    has no entry for a label that does not. *)
Definition count_grade (g : string) (df : list Row) : Z :=
  Z.of_nat (length (filter (grade_is g) df)).

(** [len(df.index)]. *)
Definition len (df : list Row) : Z := Z.of_nat (length df).

(** [counts[grade] * 100/total], line 146. *)
Definition percent (g : string) (df : list Row) : double :=
  true_divide (count_grade g df * 100) (len df).

Definition percentage (g : string) (df : list Row) : string :=
  format_2f (percent g df).

(** Lines 145-148 for one label: the line printed, or nothing when
    [counts[grade]] raises and the [except] skips the label. *)
Definition value_count_line (df : list Row) (g : string) : list string :=
  if count_grade g df =? 0 then []
  else [g ++ ": " ++ str_int (count_grade g df)
          ++ " (" ++ percentage g df ++ "%)"].

(** Lines 140-148: the lines printed, in order. *)
Definition print_value_counts (df : list Row) : list string :=
  "Grade Value Counts" :: flat_map (value_count_line df) stat_labels.

(** What [print_stats] prints for one cohort: the title, the
    enrolment, the mark column handed to [describe()], and the grade
    counts. *)
Record Stats : Type := mkStats {
  title : string;
  enrolment : Z;
  described : list cell;
  grade_counts : list string
}.

(** Lines 130-138. *)
Definition print_stats (name : string) (df : list Row) : Stats :=
  mkStats name (len df) (map mark df) (print_value_counts df).

(** [all_marks[all_marks.course_code == c]]. *)
Definition in_course (c : string) (r : Row) : bool :=
  match course_code r with
  | Some c' => String.eqb c' c
  | None => false
  end.

Definition of_course (c : string) (t : list Row) : list Row :=
  filter (in_course c) t.

(** Lines 158-161. *)
Definition print_all_stats (courses : list string) (t : list Row)
  : list Stats :=
  print_stats "All Cohorts" t
  :: map (fun c => print_stats c (of_course c t)) courses.

(** ** The PX review (lines 165-169) *)

Definition px_address (r : Row) : string :=
  match number r with
  | Some n => "u" ++ str_int n ++ "@anu.edu.au"
  | None => "unan@anu.edu.au"
  end.

(** The PX rows and their addresses; nothing when there is none. *)
Definition print_pxs (t : list Row) : option (list Row * list string) :=
  match filter (grade_is "PX") t with
  | [] => None
  | pxs => Some (pxs, map px_address pxs)
  end.

(** ** Interim codes (lines 174-180) *)

Definition interim_codes : list string := ["DA"; "PX"; "RP"; "KU"; "NCN"].

(** [g = all_marks.at[uid, 'grade']] followed by [g in interim_codes].
    Under a label that the index holds once, [g] is that row's grade.
    Under a repeated label [g] is a Series, and the membership test
    raises on its truth value. *)
Definition at_grade_in (u : string) (codes : list string) (t : list Row)
  : result (option string) :=
  match filter (has_uid u) t with
  | [] => Raise (KeyError u)
  | [r] => Ok (if str_in (grade r) codes then Some (grade r) else None)
  | _ :: _ :: _ => Raise ValueError
  end.

(** [all_marks.at[uid, mark_column] = g] under a label of the index;
    the column then holds ints and strings side by side. *)
Definition at_set_mark (u : string) (m : cell) (t : list Row) : list Row :=
  map (fun r => if has_uid u r then set_mark r m else r) t.

(** Lines 177-180, over the labels still to visit. *)
Fixpoint copy_interim_from (index : list string) (t : list Row)
  : result (list Row) :=
  match index with
  | [] => Ok t
  | u :: rest =>
      g <- at_grade_in u interim_codes t ;;
      match g with
      | Some code => copy_interim_from rest (at_set_mark u (Str code) t)
      | None => copy_interim_from rest t
      end
  end.

Definition copy_interim (t : list Row) : result (list Row) :=
  copy_interim_from (map uid t) t.

(** ** The SAS export (lines 183-191) *)

Definition dquote : string := String (ascii_of_nat 34) EmptyString.

Fixpoint has_char (p : ascii -> bool) (s : string) : bool :=
  match s with
  | EmptyString => false
  | String c rest => p c || has_char p rest
  end.

Fixpoint double_quotes (s : string) : string :=
  match s with
  | EmptyString => EmptyString
  | String c rest =>
      if Ascii.eqb c (ascii_of_nat 34)
      then String c (String c (double_quotes rest))
      else String c (double_quotes rest)
  end.

Definition csv_special (c : ascii) : bool :=
  Ascii.eqb c (ascii_of_nat 44) || Ascii.eqb c (ascii_of_nat 34)
  || Ascii.eqb c (ascii_of_nat 10) || Ascii.eqb c (ascii_of_nat 13).

(** A text field under the csv writer's minimal quoting. *)
Definition csv_text (s : string) : string :=
  if has_char csv_special s then dquote ++ double_quotes s ++ dquote else s.

Definition csv_cell (c : cell) : string :=
  match c with
  | Int z => str_int z
  | Str s => csv_text s
  | NaN => ""
  end.

Definition csv_opt (o : option string) : string :=
  match o with
  | Some s => csv_text s
  | None => ""
  end.

Definition csv_number (o : option Z) : string :=
  match o with
  | Some n => str_int n
  | None => ""
  end.

Fixpoint join (sep : string) (fields : list string) : string :=
  match fields with
  | [] => ""
  | [f] => f
  | f :: rest => f ++ sep ++ join sep rest
  end.

(** Line 185: the columns written, in order. *)
Definition csv_cols (r : Row) : list string :=
  [csv_number (number r); csv_cell (mark r); csv_text (grade r);
   csv_opt (First_name r); csv_opt (Last_name r); csv_opt (course_code r)].

(** Line 187. *)
Definition header : list string :=
  ["uid"; "mark"; "grade"; "firstname"; "surname"; "course"].

(** Line 190: the lines of the file, the header first; the index is
    not written. *)
Definition to_csv (course_marks : list Row) : list string :=
  join "," header :: map (fun r => join "," (csv_cols r)) course_marks.

(** Line 189. *)
Definition sas_filename (cc : CourseConfig) : string :=
  str_yaml (cfg_term cc) ++ "-" ++ str_yaml (cfg_subject cc) ++ "-"
  ++ str_yaml (cfg_catalogue cc) ++ "-" ++ str_yaml (cfg_class cc) ++ ".csv".

(** Lines 183-191: the files written, in order, each with its lines. *)
Fixpoint save_csvs (config : option Config) (courses : list string)
         (t : list Row) : result (list (string * list string)) :=
  match courses with
  | [] => Ok []
  | c :: rest =>
      cc <- config_at config c ;;
      saved <- save_csvs config rest t ;;
      Ok ((sas_filename cc, to_csv (of_course c t)) :: saved)
  end.

(** ** The script *)

Record Output : Type := mkOutput {
  opened : string;
  stats : list Stats;
  pxs : option (list Row * list string);
  saved : list (string * list string)
}.

(** The frame at line 128: grades derived, special grades applied,
    numbers and marks coerced. *)
Definition graded (set_0_ncn : bool) (config : option Config)
           (raw : list RawRow) : result (list Row) :=
  t <- add_special_grades config (courses_of raw)
         (add_grades set_0_ncn raw) ;;
  t <- number_astype_int t ;;
  mark_astype_int t.

(** The run, top to bottom: [listing] is [os.listdir(".")], [read_csv]
    the parsed content of a named export, [cfg] the state of
    [grade_config.yml]. *)
Definition main (set_0_ncn : bool) (listing : list string)
           (read_csv : string -> list RawRow) (cfg : config_file)
  : result Output :=
  file <- opening listing ;;
  let raw := read_csv file in
  let courses := courses_of raw in
  config <- load_config cfg ;;
  t <- graded set_0_ncn config raw ;;
  let t := remove_withdrawn t in
  let report := print_all_stats courses t in
  let review := print_pxs t in
  t <- copy_interim t ;;
  files <- save_csvs config courses t ;;
  Ok (mkOutput file report review files).

(** Lines 76-161 on their own: the statistics that a run prints, also
    one that a later line stops. *)
Definition printed_stats (set_0_ncn : bool) (listing : list string)
           (read_csv : string -> list RawRow) (cfg : config_file)
  : result (list Stats) :=
  file <- opening listing ;;
  let raw := read_csv file in
  config <- load_config cfg ;;
  t <- graded set_0_ncn config raw ;;
  Ok (print_all_stats (courses_of raw) (remove_withdrawn t)).

(** ** The specification's vocabulary *)

(** The band table of the grade deriver as the specification lists it:
    bounds inclusive, the last band open above, the label of the zero
    band depending on the zero flag. *)
Record Band : Type := mkBand {
  lo : Z;
  hi : option Z;
  label : bool -> string
}.

Definition spec_bands : list Band :=
  [ mkBand 0 (Some 0) (fun zero_flag => if zero_flag then "NCN" else "N");
    mkBand 1 (Some 44) (fun _ => "N");
    mkBand 45 (Some 49) (fun _ => "PX");
    mkBand 50 (Some 59) (fun _ => "P");
    mkBand 60 (Some 69) (fun _ => "CR");
    mkBand 70 (Some 79) (fun _ => "D");
    mkBand 80 None (fun _ => "HD") ].

Definition in_band (m : Z) (b : Band) : bool :=
  (lo b <=? m) &&
  match hi b with
  | Some h => m <=? h
  | None => true
  end.

Definition derived_labels : list string :=
  ["HD"; "D"; "CR"; "P"; "PX"; "N"; "NCN"].

(** A row the withdrawal filter is to remove. *)
Definition withdrawn (r : Row) : bool := grade_is "WD" r || grade_is "WN" r.

(** The override entries in the order lines 119-123 visit them:
    course by course, each mapping in document order. *)
Fixpoint special_grades_of (config : option Config) (courses : list string)
  : result (list (string * string)) :=
  match courses with
  | [] => Ok []
  | c :: rest =>
      cc <- config_at config c ;;
      match cfg_grades cc with
      | GradesAbsent => Raise (KeyError "grades")
      | GradesNone => special_grades_of config rest
      | GradesMap m => ms <- special_grades_of config rest ;; Ok (m ++ ms)%list
      end
  end.

(** The code of the last entry of [m] that names [u]. *)
Fixpoint last_code (u : string) (m : list (string * string))
  : option string :=
  match m with
  | [] => None
  | (u', g) :: rest =>
      match last_code u rest with
      | Some g' => Some g'
      | None => if String.eqb u' u then Some g else None
      end
  end.

(** What one override entry does to a row, and what a sequence of
    entries does to it. *)
Definition override_row (u g : string) (r : Row) : Row :=
  if has_uid u r then set_grade r g else r.

Definition override_rows (m : list (string * string)) (r : Row) : Row :=
  fold_left (fun acc ug => override_row (fst ug) (snd ug) acc) m r.

(** The row that an override of an unknown uid appends. *)
Definition new_row (u g : string) : Row := mkRow u None NaN None None None g.

(** Interim substitution on one row, as the specification words it. *)
Definition interim_row (r : Row) : Row :=
  if str_in (grade r) interim_codes then set_mark r (Str (grade r)) else r.

(** ** Vocabulary of the further properties *)

(** The grade a row ends with under the override entries [m]. *)
Definition overridden (m : list (string * string)) (r : Row) : Row :=
  match last_code (uid r) m with
  | Some g => set_grade r g
  | None => r
  end.

(** The uids of the export's rows. *)
Definition raw_uids (raw : list RawRow) : list string :=
  map (fun r => uid_of (Student_Number r)) raw.

(** The order of the derived bands, lowest first. *)
Definition grade_rank (g : string) : Z :=
  if String.eqb g "PX" then 1
  else if String.eqb g "P" then 2
  else if String.eqb g "CR" then 3
  else if String.eqb g "D" then 4
  else if String.eqb g "HD" then 5
  else 0.

(** The line of a row in its course's file. *)
Definition export_line (r : Row) : string :=
  join ","
       [csv_number (number r);
        if str_in (grade r) interim_codes then csv_text (grade r)
        else csv_cell (mark r);
        csv_text (grade r); csv_opt (First_name r); csv_opt (Last_name r);
        csv_opt (course_code r)].

(** The file name of a course that has an entry. *)
Definition course_filename (config : option Config) (c : string) : string :=
  match config_at config c with
  | Ok cc => sas_filename cc
  | Raise _ => ""
  end.

(** The data lines of the files written, headers apart. *)
Definition exported_rows (files : list (string * list string)) : Z :=
  fold_right (fun f acc => Z.of_nat (length (snd f)) - 1 + acc) 0 files.

(** The sum of the counts that the grade report shows. *)
Definition listed_total (df : list Row) : Z :=
  fold_right (fun g acc => count_grade g df + acc) 0 stat_labels.

(** ** Sample inputs *)

Definition jane : RawRow := mkRaw "COMP1100" 1234567 82 "Jane" "Doe".

Definition john : RawRow := mkRaw "COMP2100" 7654321 65 "John" "Roe".

Definition mary : RawRow := mkRaw "COMP1100" 2345678 47 "Mary" "Major".

(** A course entry of term 3430 in the subject COMP. *)
Definition comp (catalogue class : Z) (g : grades_entry) : CourseConfig :=
  mkCourse (YStr "UGRD") (YInt 3430) (YStr "COMP") (YInt catalogue)
           (YInt class) g.

Definition sample_listing : list string :=
  ["extract_marks.py"; "grades_for_SAS.csv"; "grade_config.yml"].


(** Configurations over these rows: no special grade; Mary withdrawn;
    a uid that no row carries; two courses naming one student. *)
Definition plain_config : Config :=
  [("COMP1100", comp 1100 4567 GradesNone)].

Definition withdrawn_config : Config :=
  [("COMP1100", comp 1100 4567 (GradesMap [("u2345678", "WD")]))].

Definition typo_config : Config :=
  [("COMP1100", comp 1100 4567 (GradesMap [("u7654321", "DA")]))].



(** * Theorems *)

(** ** Strings and results *)

Lemma prefix_iff (sub s : string) :
  prefix sub s = true <-> exists b, s = sub ++ b.
Proof.
  revert s. induction sub as [|a sub IH]; intros s.
  - split; [intros _; exists s; reflexivity | intros _; destruct s; reflexivity].
  - destruct s as [|c s]; simpl.
    + split; [discriminate | intros [b Hb]; discriminate].
    + destruct (ascii_dec a c) as [->|Hac].
      * rewrite IH. split; intros [b Hb]; exists b.
        -- now rewrite Hb.
        -- now injection Hb.
      * split; [discriminate | intros [b Hb]; injection Hb; congruence].
Qed.

(** [contains] is the substring test. *)
Lemma contains_iff (sub s : string) :
  contains sub s = true <-> exists a b, s = a ++ sub ++ b.
Proof.
  induction s as [|c s IH].
  - cbn [contains]. rewrite orb_false_r, prefix_iff. split.
    + intros [b Hb]. exists "", b. exact Hb.
    + intros [a [b Hab]]. destruct a; [exists b; exact Hab | discriminate].
  - cbn [contains]. rewrite orb_true_iff, IH, prefix_iff. split.
    + intros [[b Hb] | [a [b Hab]]].
      * exists "", b. exact Hb.
      * exists (String c a), b. simpl. now rewrite Hab.
    + intros [a [b Hab]]. destruct a as [|c' a].
      * left. exists b. exact Hab.
      * right. exists a, b. simpl in Hab. now injection Hab.
Qed.

Lemma filter_first {A : Type} (p : A -> bool) (l : list A) :
  (filter p l = [] /\ forall x, In x l -> p x = false)
  \/ exists pre x post rest,
      l = (pre ++ x :: post)%list /\ (forall y, In y pre -> p y = false)
      /\ p x = true /\ filter p l = x :: rest.
Proof.
  induction l as [|a l IH]; simpl.
  - left. split; [reflexivity | intros x []].
  - destruct (p a) eqn:Ha.
    + right. exists [], a, l, (filter p l). repeat split; auto. intros y [].
    + destruct IH as [[Hnil Hall] | (pre & x & post & rest & Hl & Hpre & Hx & Hf)].
      * left. split; [exact Hnil|]. intros x [<-|Hx]; auto.
      * right. exists (a :: pre), x, post, rest. repeat split; auto.
        -- simpl. now rewrite Hl.
        -- intros y [<-|Hy]; auto.
Qed.

(** ** The loader *)

(** C9.  File discovery opens the first name of the directory listing
    that contains the marker [for_SAS], a name being one that contains
    it when it reads [a ++ "for_SAS" ++ b] for some [a] and [b]: when
    no name of the listing contains the marker the run stops on an
    IndexError; otherwise the listing splits into names that do not
    contain it, a name that does, and the rest, and that name is
    opened, whatever follows it, without an error. *)
Theorem C9_opening_first_match (listing : list string) :
  ((forall f, In f listing -> ~ exists a b, f = a ++ "for_SAS" ++ b)
   /\ opening listing = Raise IndexError)
  \/ exists pre f post,
      listing = (pre ++ f :: post)%list
      /\ (forall g, In g pre -> ~ exists a b, g = a ++ "for_SAS" ++ b)
      /\ (exists a b, f = a ++ "for_SAS" ++ b)
      /\ opening listing = Ok f.
Proof.
  unfold opening, possible_sas_exports.
  destruct (filter_first (contains "for_SAS") listing)
    as [[Hnil Hall] | (pre & f & post & rest & Hl & Hpre & Hf & Hfil)].
  - left. rewrite Hnil. split; [|reflexivity].
    intros f Hin Hsub. apply contains_iff in Hsub.
    rewrite (Hall f Hin) in Hsub. discriminate Hsub.
  - right. exists pre, f, post. rewrite Hfil.
    split; [exact Hl|]. split; [|split; [now apply contains_iff | reflexivity]].
    intros g Hin Hsub. apply contains_iff in Hsub.
    rewrite (Hpre g Hin) in Hsub. discriminate Hsub.
Qed.

(** ** The grade deriver *)

Ltac leb_cases :=
  repeat match goal with
         | |- context [?a <=? ?b] => destruct (Z.leb_spec a b); try lia
         | |- context [?a =? ?b] => destruct (Z.eqb_spec a b); try lia
         end.

(** C3.  On a mark [m >= 0] the deriver returns one of the seven
    derived labels; exactly one band of the specification's table
    holds [m], and the label returned is that band's label under the
    zero flag. *)
Theorem C3_generate_grade_bands (set_0_ncn : bool) (m : Z) :
  0 <= m ->
  In (generate_grade set_0_ncn m) derived_labels
  /\ exists b, filter (in_band m) spec_bands = [b]
               /\ generate_grade set_0_ncn m = label b set_0_ncn.
Proof.
  intros Hm. unfold generate_grade, spec_bands, in_band, derived_labels.
  cbn [filter lo hi label andb].
  leb_cases; cbn [andb]; (split; [destruct set_0_ncn; simpl; tauto|]);
    eexists; (split; [reflexivity|]); reflexivity.
Qed.

Lemma C3_generate_grade_bands_witness :
  In (generate_grade true 0) derived_labels
  /\ exists b, filter (in_band 0) spec_bands = [b]
               /\ generate_grade true 0 = label b true.
Proof. apply (C3_generate_grade_bands true 0). lia. Defined.

(** C10.  A negative mark is graded N, whatever the zero flag. *)
Theorem C10_generate_grade_negative (set_0_ncn : bool) (m : Z) :
  m < 0 -> generate_grade set_0_ncn m = "N".
Proof.
  intros Hm. unfold generate_grade. leb_cases. reflexivity.
Qed.

Lemma C10_generate_grade_negative_witness :
  generate_grade true (-3) = "N" /\ generate_grade false (-3) = "N".
Proof.
  split; apply C10_generate_grade_negative; lia.
Defined.

(** ** The withdrawal filter *)

Lemma filter_filter {A : Type} (p q : A -> bool) (l : list A) :
  filter q (filter p l) = filter (fun x => p x && q x) l.
Proof.
  induction l as [|a l IH]; simpl; [reflexivity|].
  destruct (p a); simpl; [destruct (q a)|]; now rewrite IH.
Qed.

Lemma remove_withdrawn_filter (t : list Row) :
  remove_withdrawn t = filter (fun r => negb (withdrawn r)) t.
Proof.
  unfold remove_withdrawn. rewrite filter_filter.
  apply filter_ext. intros r. unfold withdrawn.
  now rewrite negb_orb.
Qed.

Lemma len_remove_withdrawn (t : list Row) :
  len (remove_withdrawn t) = len t - count_grade "WD" t - count_grade "WN" t.
Proof.
  rewrite remove_withdrawn_filter. unfold len, count_grade, withdrawn.
  induction t as [|r t IH]; [reflexivity|].
  cbn [filter].
  destruct (grade_is "WD" r) eqn:E; destruct (grade_is "WN" r) eqn:E';
    cbn [negb orb length]; try lia.
  unfold grade_is in E, E'. apply String.eqb_eq in E, E'. congruence.
Qed.

(** C4.  The withdrawal filter keeps, in order and as they are, the
    rows whose grade is neither WD nor WN, and removes the others: a
    row is in the result exactly when it is in the table with a grade
    other than WD and WN, and the row count drops by the number of WD
    rows and the number of WN rows. *)
Theorem C4_remove_withdrawn_spec (t : list Row) :
  remove_withdrawn t = filter (fun r => negb (withdrawn r)) t
  /\ (forall r, In r (remove_withdrawn t)
                <-> In r t /\ grade r <> "WD" /\ grade r <> "WN")
  /\ len (remove_withdrawn t) = len t - count_grade "WD" t - count_grade "WN" t.
Proof.
  split; [apply remove_withdrawn_filter|].
  split; [|apply len_remove_withdrawn].
  intros r. rewrite remove_withdrawn_filter, filter_In.
  unfold withdrawn, grade_is. rewrite negb_true_iff, orb_false_iff.
  rewrite !String.eqb_neq. tauto.
Qed.

(** ** Special grades *)

Lemma has_uid_override_row (v u g : string) (r : Row) :
  has_uid v (override_row u g r) = has_uid v r.
Proof. unfold override_row. now destruct (has_uid u r). Qed.

Lemma existsb_override_row (v u g : string) (t : list Row) :
  existsb (has_uid v) (map (override_row u g) t) = existsb (has_uid v) t.
Proof.
  induction t as [|r t IH]; simpl; [reflexivity|].
  now rewrite has_uid_override_row, IH.
Qed.

Lemma at_set_grade_present (u g : string) (t : list Row) :
  existsb (has_uid u) t = true ->
  at_set_grade u g t = map (override_row u g) t.
Proof. intros H. unfold at_set_grade. now rewrite H. Qed.

Lemma at_set_grade_absent (u g : string) (t : list Row) :
  existsb (has_uid u) t = false ->
  at_set_grade u g t = (t ++ [new_row u g])%list.
Proof. intros H. unfold at_set_grade. now rewrite H. Qed.









Lemma uid_override_row (u g : string) (r : Row) :
  uid (override_row u g r) = uid r.
Proof. unfold override_row. now destruct (has_uid u r). Qed.

Lemma override_rows_last (m : list (string * string)) (r : Row) :
  override_rows m r =
  match last_code (uid r) m with
  | Some g => set_grade r g
  | None => r
  end.
Proof.
  revert r. induction m as [|[u c] m IH]; intros r; [reflexivity|].
  change (override_rows ((u, c) :: m) r)
    with (override_rows m (override_row u c r)).
  rewrite IH, uid_override_row. simpl.
  destruct (last_code (uid r) m) as [g|].
  - unfold override_row. now destruct (has_uid u r).
  - unfold override_row, has_uid. rewrite (String.eqb_sym (uid r) u).
    now destruct (String.eqb u (uid r)).
Qed.

Lemma apply_grades_all_present (m : list (string * string)) (t : list Row) :
  (forall u g, In (u, g) m -> existsb (has_uid u) t = true) ->
  apply_grades m t = map (override_rows m) t.
Proof.
  revert t. induction m as [|[u c] m IH]; intros t H.
  - simpl. now rewrite map_id.
  - change (apply_grades ((u, c) :: m) t)
      with (apply_grades m (at_set_grade u c t)).
    rewrite at_set_grade_present by (apply (H u c); now left).
    rewrite IH, map_map; [reflexivity|].
    intros v g Hin. rewrite existsb_override_row. apply (H v g). now right.
Qed.



Lemma last_code_In (m : list (string * string)) (u g : string) :
  last_code u m = Some g -> In (u, g) m.
Proof.
  induction m as [|[v d] m IH]; [discriminate|].
  simpl. destruct (last_code u m) as [x|].
  - intros E. right. apply IH. congruence.
  - destruct (String.eqb_spec v u) as [->|]; [|discriminate].
    intros E. left. congruence.
Qed.



(** Lines 119-123 apply the entries of [special_grades_of] in order. *)
Lemma add_special_grades_entries (config : option Config)
      (courses : list string) (t : list Row) :
  add_special_grades config courses t =
  (m <- special_grades_of config courses ;; Ok (apply_grades m t)).
Proof.
  revert t. induction courses as [|c rest IH]; intros t; [reflexivity|].
  simpl. destruct (config_at config c) as [cc|e]; [|reflexivity]. simpl.
  destruct (cfg_grades cc) as [| |mc]; [reflexivity | apply IH |].
  rewrite IH. destruct (special_grades_of config rest) as [ms|e]; simpl.
  - unfold apply_grades. now rewrite fold_left_app.
  - reflexivity.
Qed.


Lemma number_astype_int_missing (t : list Row) (r : Row) :
  number r = None -> number_astype_int (t ++ [r]) = Raise ValueError.
Proof.
  intros Hr. induction t as [|r0 t IH]; simpl.
  - now rewrite Hr.
  - destruct (number r0); [|reflexivity]. now rewrite IH.
Qed.

(** C2, as the specification states it, fails: an override of a uid
    that the table does not hold gives the table one more row, and the
    run then stops at the integer coercion of line 126. *)
Lemma C2_override_absent_counterexample :
  existsb (has_uid "u7654321") (add_grades false [jane]) = false
  /\ add_special_grades (Some typo_config) (courses_of [jane])
                        (add_grades false [jane])
     = Ok (add_grades false [jane] ++ [new_row "u7654321" "DA"])%list
  /\ add_special_grades (Some typo_config) (courses_of [jane])
                        (add_grades false [jane])
     <> Ok (add_grades false [jane])
  /\ graded false (Some typo_config) [jane] = Raise ValueError.
Proof.
  repeat split; try reflexivity. discriminate.
Qed.

(** C2, amended.  An override entry whose uid is not in the table
    modifies no row of the table and raises nothing where it is
    applied, but it appends one row under that uid, holding the
    override code as its grade and nothing in its other columns; for
    want of a student number on that row, the integer coercion that
    follows raises. *)
Theorem C2_override_absent_appends (u g : string) (t : list Row) :
  existsb (has_uid u) t = false ->
  at_set_grade u g t = (t ++ [new_row u g])%list
  /\ new_row u g = mkRow u None NaN None None None g
  /\ number_astype_int (at_set_grade u g t) = Raise ValueError.
Proof.
  intros H. rewrite at_set_grade_absent by exact H.
  repeat split. now apply number_astype_int_missing.
Qed.

Lemma C2_override_absent_appends_witness :
  at_set_grade "u7654321" "DA" (add_grades false [jane])
  = (add_grades false [jane] ++ [new_row "u7654321" "DA"])%list
  /\ new_row "u7654321" "DA" = mkRow "u7654321" None NaN None None None "DA"
  /\ number_astype_int (at_set_grade "u7654321" "DA" (add_grades false [jane]))
     = Raise ValueError.
Proof.
  apply C2_override_absent_appends. reflexivity.
Defined.




(** ** Interim codes *)

Lemma filter_none {A : Type} (p : A -> bool) (l : list A) :
  (forall x, In x l -> p x = false) -> filter p l = [].
Proof.
  induction l as [|a l IH]; intros H; [reflexivity|].
  simpl. rewrite (H a) by now left. apply IH. intros x Hx. apply H. now right.
Qed.

Lemma filter_has_uid_unique (t : list Row) (r : Row) :
  NoDup (map uid t) -> In r t -> filter (has_uid (uid r)) t = [r].
Proof.
  induction t as [|a t IH]; intros Hnd Hin; [destruct Hin|].
  simpl in Hnd. inversion Hnd as [|x l Hnotin Hnd']; subst.
  simpl. unfold has_uid at 1. destruct Hin as [-> | Hin].
  - rewrite String.eqb_refl. f_equal.
    apply filter_none. intros r' Hr'. unfold has_uid.
    apply String.eqb_neq. intros E. apply Hnotin.
    rewrite <- E. now apply in_map.
  - destruct (String.eqb_spec (uid a) (uid r)) as [E|_].
    + exfalso. apply Hnotin. rewrite E. now apply in_map.
    + now apply IH.
Qed.

Lemma interim_row_uid (r : Row) : uid (interim_row r) = uid r.
Proof. unfold interim_row. now destruct (str_in (grade r) interim_codes). Qed.

Lemma interim_row_twice (r : Row) : interim_row (interim_row r) = interim_row r.
Proof.
  unfold interim_row.
  destruct (str_in (grade r) interim_codes) eqn:E.
  - cbn [grade set_mark]. now rewrite E.
  - now rewrite E.
Qed.

(** The table after the label [u] has been visited. *)
Lemma copy_interim_step (t : list Row) (u : string) (r : Row) :
  NoDup (map uid t) -> In r t -> uid r = u ->
  at_grade_in u interim_codes t
  = Ok (if str_in (grade r) interim_codes then Some (grade r) else None)
  /\ (if str_in (grade r) interim_codes
      then at_set_mark u (Str (grade r)) t else t)
     = map (fun r' => if has_uid u r' then interim_row r' else r') t.
Proof.
  intros Hnd Hin <-. split.
  - unfold at_grade_in. now rewrite filter_has_uid_unique.
  - assert (Hsame : forall r', In r' t -> has_uid (uid r) r' = true -> r' = r).
    { intros r' Hr' Hu.
      assert (Hf : In r' (filter (has_uid (uid r)) t))
        by (apply filter_In; now split).
      rewrite filter_has_uid_unique in Hf by assumption.
      destruct Hf as [<- | []]. reflexivity. }
    destruct (str_in (grade r) interim_codes) eqn:E.
    + unfold at_set_mark. apply map_ext_in. intros r' Hr'.
      destruct (has_uid (uid r) r') eqn:Hu; [|reflexivity].
      rewrite (Hsame r' Hr' Hu). unfold interim_row. now rewrite E.
    + rewrite <- (map_id t) at 1. apply map_ext_in. intros r' Hr'.
      destruct (has_uid (uid r) r') eqn:Hu; [|reflexivity].
      rewrite (Hsame r' Hr' Hu). unfold interim_row. now rewrite E.
Qed.

Lemma map_uid_step (u : string) (t : list Row) :
  map uid (map (fun r' => if has_uid u r' then interim_row r' else r') t)
  = map uid t.
Proof.
  rewrite map_map. apply map_ext. intros r.
  destruct (has_uid u r); [apply interim_row_uid | reflexivity].
Qed.

Lemma copy_interim_from_unique (index : list string) (t : list Row) :
  NoDup (map uid t) -> incl index (map uid t) ->
  copy_interim_from index t
  = Ok (map (fun r => if str_in (uid r) index then interim_row r else r) t).
Proof.
  revert t. induction index as [|u rest IH]; intros t Hnd Hincl.
  - simpl. now rewrite map_id.
  - assert (Hu : In u (map uid t)) by (apply Hincl; now left).
    apply in_map_iff in Hu. destruct Hu as (r & Hr & Hin).
    destruct (copy_interim_step t u r Hnd Hin Hr) as [Hget Hset].
    cbn [copy_interim_from]. rewrite Hget. cbn [bind].
    assert (Hnext :
      copy_interim_from rest
        (map (fun r' => if has_uid u r' then interim_row r' else r') t)
      = Ok (map (fun r => if str_in (uid r) (u :: rest)
                          then interim_row r else r) t)).
    { rewrite IH.
      - rewrite map_map. f_equal. apply map_ext. intros r'.
        change (str_in (uid r') (u :: rest))
          with (String.eqb (uid r') u || str_in (uid r') rest)%bool.
        unfold has_uid. destruct (String.eqb (uid r') u); cbn [orb].
        + rewrite interim_row_uid.
          destruct (str_in (uid r') rest);
            [apply interim_row_twice | reflexivity].
        + reflexivity.
      - now rewrite map_uid_step.
      - rewrite map_uid_step. intros v Hv. apply Hincl. now right. }
    rewrite <- Hset in Hnext.
    destruct (str_in (grade r) interim_codes); exact Hnext.
Qed.

Lemma str_in_In (x : string) (xs : list string) :
  str_in x xs = true <-> In x xs.
Proof.
  unfold str_in. rewrite existsb_exists. split.
  - intros (y & Hy & E). apply String.eqb_eq in E. now subst.
  - intros H. exists x. split; [exact H | apply String.eqb_refl].
Qed.

(** C7.  On a table whose uids are distinct, interim substitution
    returns the table with [interim_row] applied to each row: the mark
    becomes the grade code on the rows whose grade is DA, PX, RP, KU or
    NCN, stays what it was on every other row, and no other column of
    any row changes. *)
Theorem C7_copy_interim_marks_only (t : list Row) :
  NoDup (map uid t) ->
  copy_interim t = Ok (map interim_row t)
  /\ forall r,
      (In (grade r) ["DA"; "PX"; "RP"; "KU"; "NCN"] ->
       mark (interim_row r) = Str (grade r))
      /\ (~ In (grade r) ["DA"; "PX"; "RP"; "KU"; "NCN"] ->
          mark (interim_row r) = mark r)
      /\ uid (interim_row r) = uid r
      /\ number (interim_row r) = number r
      /\ First_name (interim_row r) = First_name r
      /\ Last_name (interim_row r) = Last_name r
      /\ course_code (interim_row r) = course_code r
      /\ grade (interim_row r) = grade r.
Proof.
  intros Hnd. split.
  - unfold copy_interim.
    rewrite copy_interim_from_unique by (assumption || apply incl_refl).
    f_equal. apply map_ext_in. intros r Hr.
    assert (str_in (uid r) (map uid t) = true) as ->; [|reflexivity].
    apply str_in_In. now apply in_map.
  - intros r. change ["DA"; "PX"; "RP"; "KU"; "NCN"] with interim_codes.
    rewrite <- str_in_In. unfold interim_row.
    destruct (str_in (grade r) interim_codes); simpl;
      repeat split; congruence.
Qed.

(** ** The cohort reporter *)

Lemma rne_near (a b : Z) : 0 < b -> 2 * Z.abs (rne a b * b - a) <= b.
Proof.
  intros Hb. unfold rne.
  pose proof (Z.div_mod a b ltac:(lia)) as Hdiv.
  pose proof (Z.mod_pos_bound a b Hb) as Hmod.
  destruct (Z.ltb_spec (2 * (a mod b)) b);
    [|destruct (Z.ltb_spec b (2 * (a mod b))); [|destruct (Z.even (a / b))]];
    nia.
Qed.

(** The quotient is scaled to 53 significant bits. *)
Lemma true_divide_scale (a b : Z) :
  0 < a -> 0 < b -> Z.log2 a <= 52 + Z.log2 b ->
  0 <= shift (true_divide a b)
  /\ 2 ^ 52 * b <= a * 2 ^ shift (true_divide a b).
Proof.
  intros Ha Hb Hlog. unfold true_divide. cbn [shift].
  pose proof (Z.log2_nonneg a) as Hla. pose proof (Z.log2_nonneg b) as Hlb.
  destruct (Z.log2_spec a Ha) as [Hal _].
  destruct (Z.log2_spec b Hb) as [_ Hbu].
  set (s0 := 52 + Z.log2 b - Z.log2 a) in *.
  destruct (Z.leb_spec (2 ^ 52 * b) (a * 2 ^ s0)) as [Hle|Hlt].
  - split; [lia | exact Hle].
  - split; [lia|].
    assert (E : 2 ^ Z.log2 a * 2 ^ s0 = 2 ^ 52 * 2 ^ Z.log2 b).
    { rewrite <- !Z.pow_add_r by lia. f_equal. lia. }
    rewrite Z.pow_succ_r in Hbu by lia.
    replace (s0 + 1) with (Z.succ s0) by lia. rewrite Z.pow_succ_r by lia.
    assert (0 < 2 ^ s0) by (apply Z.pow_pos_nonneg; lia).
    assert (2 ^ Z.log2 a * 2 ^ s0 <= a * 2 ^ s0) by nia.
    nia.
Qed.

(** The hundredths printed for [c] rows out of [t] are the integer
    nearest to [10000 * c / t]: neither rounding, of the quotient to
    binary64 and of its value to two decimals, moves the result off
    it. *)
Lemma percent_nearest (c t : Z) :
  0 < c -> c <= t -> t < 2 ^ 38 ->
  2 * Z.abs (hundredths (true_divide (c * 100) t) * t - 10000 * c) <= t.
Proof.
  intros Hc Hct Ht.
  assert (Hlog : Z.log2 (c * 100) <= 52 + Z.log2 t).
  { pose proof (Z.log2_nonneg t).
    assert (Z.log2 (c * 100) < 52); [|lia].
    apply Z.log2_lt_pow2; lia. }
  destruct (true_divide_scale (c * 100) t ltac:(lia) ltac:(lia) Hlog)
    as [Hs Hscale].
  unfold hundredths.
  assert (Hm : mant (true_divide (c * 100) t)
               = rne (c * 100 * 2 ^ shift (true_divide (c * 100) t)) t)
    by reflexivity.
  set (s := shift (true_divide (c * 100) t)) in *.
  set (m := mant (true_divide (c * 100) t)) in *.
  assert (HP : 0 < 2 ^ s) by (apply Z.pow_pos_nonneg; lia).
  set (P := 2 ^ s) in *.
  pose proof (rne_near (c * 100 * P) t ltac:(lia)) as H1. rewrite <- Hm in H1.
  pose proof (rne_near (100 * m) P HP) as H2.
  set (h := rne (100 * m) P) in *.
  change (2 ^ 52) with 4503599627370496 in Hscale.
  change (2 ^ 38) with 274877906944 in Ht.
  destruct (Z.le_gt_cases (2 * Z.abs (h * t - 10000 * c)) t) as [|Hbad];
    [assumption | exfalso].
  assert (Hid : P * (h * t - 10000 * c)
                = t * (h * P - 100 * m) + 100 * (m * t - c * 100 * P)) by ring.
  assert (H3 : 2 * P * Z.abs (h * t - 10000 * c) <= t * P + 100 * t).
  { rewrite <- Z.mul_assoc, <- (Z.abs_eq P) at 1 by lia.
    rewrite <- Z.abs_mul, Hid.
    pose proof (Z.abs_triangle (t * (h * P - 100 * m))
                               (100 * (m * t - c * 100 * P))) as Htri.
    rewrite !Z.abs_mul in Htri. rewrite (Z.abs_eq t) in Htri by lia.
    rewrite (Z.abs_eq 100) in Htri by lia. nia. }
  assert (H4 : P * (t + 1) <= 2 * P * Z.abs (h * t - 10000 * c)) by nia.
  assert (H5 : P <= 100 * t) by nia.
  nia.
Qed.

Lemma count_grade_le_len (g : string) (df : list Row) :
  0 <= count_grade g df <= len df.
Proof.
  unfold count_grade, len. split; [lia|].
  apply Nat2Z.inj_le. induction df as [|r df IH]; simpl; [lia|].
  destruct (grade_is g r); simpl; lia.
Qed.

Lemma flat_map_optional {A B : Type} (skip : A -> bool) (f : A -> B)
      (l : list A) :
  flat_map (fun x => if skip x then [] else [f x]) l
  = map f (filter (fun x => negb (skip x)) l).
Proof.
  induction l as [|a l IH]; simpl; [reflexivity|].
  destruct (skip a); simpl; now rewrite IH.
Qed.

(** The count of a label is the number of times it occurs in the
    [grade] column. *)
Lemma count_grade_count_occ (g : string) (df : list Row) :
  count_grade g df = Z.of_nat (count_occ string_dec (map grade df) g).
Proof.
  unfold count_grade. f_equal.
  induction df as [|r df IH]; simpl; [reflexivity|].
  unfold grade_is at 1.
  destruct (string_dec (grade r) g) as [E|E].
  - apply String.eqb_eq in E. rewrite E. simpl. now rewrite IH.
  - apply String.eqb_neq in E. now rewrite E.
Qed.

Lemma append_assoc (a b c : string) : (a ++ b) ++ c = a ++ b ++ c.
Proof. induction a as [|x a IH]; simpl; [reflexivity | now rewrite IH]. Qed.

(** A digit prints as the character of code 48 plus the digit. *)
Lemma str_int_digit (d : Z) :
  0 <= d < 10 -> str_int d = String (ascii_of_nat (48 + Z.to_nat d)) "".
Proof.
  intros H.
  assert (C : d = 0 \/ d = 1 \/ d = 2 \/ d = 3 \/ d = 4 \/ d = 5 \/ d = 6
              \/ d = 7 \/ d = 8 \/ d = 9) by lia.
  repeat (destruct C as [-> | C]; [reflexivity|]). now subst.
Qed.

(** The two decimals that [.2f] prints are the tens and the units of
    the hundredths. *)
Lemma show_2dp_digits (h : Z) :
  show_2dp h
  = NilZero.string_of_int (Z.to_int (h / 100)) ++ "."
    ++ String (ascii_of_nat (48 + Z.to_nat (h / 10 mod 10))) ""
    ++ String (ascii_of_nat (48 + Z.to_nat (h mod 10))) "".
Proof.
  unfold show_2dp, two_digits.
  replace (h mod 100 / 10) with (h / 10 mod 10)
    by (Z.div_mod_to_equations; lia).
  replace (h mod 100 mod 10) with (h mod 10)
    by (Z.div_mod_to_equations; lia).
  rewrite (str_int_digit (h / 10 mod 10)), (str_int_digit (h mod 10))
    by (apply Z.mod_pos_bound; lia).
  reflexivity.
Qed.

(** C8.  For a cohort of fewer than [2^38] rows, the grade report is
    its heading followed by one line per label of the fixed list HD,
    D, CR, P, PX, N, NCN, DA, RP, KU, WD, WN, in that order, for the
    labels that occur in the [grade] column of the cohort and for no
    other.  With [count g] the number of occurrences of [g] in that
    column, the line of [g] reads [g: count (i.dd%)], where [count] is
    in decimal notation and [i], [d], [d] are the integer part in
    decimal notation, the tens digit and the units digit of a number
    of hundredths [pct g] that is an integer nearest to
    [count g * 100 / rows * 100]: twice its distance to
    [10000 * count g / rows] is at most one. *)
Theorem C8_print_value_counts_spec (df : list Row) :
  Z.of_nat (length df) < 2 ^ 38 ->
  exists count pct : string -> Z,
    (forall g, count g = Z.of_nat (count_occ string_dec (map grade df) g))
    /\ (forall g, 0 < count g ->
          2 * Z.abs (pct g * Z.of_nat (length df) - 10000 * count g)
          <= Z.of_nat (length df))
    /\ print_value_counts df
       = "Grade Value Counts"
         :: map (fun g =>
                   g ++ ": " ++ NilZero.string_of_int (Z.to_int (count g))
                     ++ " (" ++ NilZero.string_of_int (Z.to_int (pct g / 100))
                     ++ "."
                     ++ String (ascii_of_nat (48 + Z.to_nat (pct g / 10 mod 10))) ""
                     ++ String (ascii_of_nat (48 + Z.to_nat (pct g mod 10))) ""
                     ++ "%)")
                (filter (fun g => 0 <? count g)
                        ["HD"; "D"; "CR"; "P"; "PX"; "N"; "NCN";
                         "DA"; "RP"; "KU"; "WD"; "WN"]).
Proof.
  intros Hlen.
  exists (fun g => count_grade g df), (fun g => hundredths (percent g df)).
  cbv beta. split; [intros g; apply count_grade_count_occ|]. split.
  - intros g Hg. unfold percent.
    apply percent_nearest; [exact Hg | apply count_grade_le_len | exact Hlen].
  - unfold print_value_counts, value_count_line, percentage, format_2f.
    f_equal. rewrite flat_map_optional.
    rewrite (filter_ext (fun g => negb (count_grade g df =? 0))
                        (fun g => 0 <? count_grade g df)).
    + apply map_ext. intros g. rewrite show_2dp_digits.
      rewrite !append_assoc. reflexivity.
    + intros g. pose proof (count_grade_le_len g df).
      destruct (Z.eqb_spec (count_grade g df) 0);
        destruct (Z.ltb_spec 0 (count_grade g df)); simpl; lia || reflexivity.
Qed.

Lemma count_grade_none (g : string) (df : list Row) :
  (forall r, In r df -> grade r <> g) -> count_grade g df = 0.
Proof.
  intros H. unfold count_grade. rewrite filter_none; [reflexivity|].
  intros r Hr. unfold grade_is. apply String.eqb_neq. now apply H.
Qed.

Lemma remove_withdrawn_grades (t : list Row) (r : Row) :
  In r (remove_withdrawn t) -> In r t /\ grade r <> "WD" /\ grade r <> "WN".
Proof.
  rewrite remove_withdrawn_filter, filter_In.
  unfold withdrawn, grade_is. rewrite negb_true_iff, orb_false_iff.
  rewrite !String.eqb_neq. tauto.
Qed.

(** The run's stages, read off a run that completes. *)
Lemma main_stages (set_0_ncn : bool) (listing : list string)
      (read_csv : string -> list RawRow) (cfg : config_file) (out : Output) :
  main set_0_ncn listing read_csv cfg = Ok out ->
  exists file config t t',
    opening listing = Ok file
    /\ load_config cfg = Ok config
    /\ graded set_0_ncn config (read_csv file) = Ok t
    /\ copy_interim (remove_withdrawn t) = Ok t'
    /\ save_csvs config (courses_of (read_csv file)) t' = Ok (saved out)
    /\ opened out = file
    /\ stats out
       = print_all_stats (courses_of (read_csv file)) (remove_withdrawn t)
    /\ pxs out = print_pxs (remove_withdrawn t).
Proof.
  unfold main. intros H.
  destruct (opening listing) as [file|] eqn:Hopen; [|discriminate].
  destruct (load_config cfg) as [config|] eqn:Hcfg; [|discriminate].
  cbn [bind] in H.
  destruct (graded set_0_ncn config (read_csv file)) as [t|] eqn:Hgr;
    [|discriminate].
  cbn [bind] in H.
  destruct (copy_interim (remove_withdrawn t)) as [t'|] eqn:Hint;
    [|discriminate].
  cbn [bind] in H.
  destruct (save_csvs config (courses_of (read_csv file)) t') as [files|]
    eqn:Hsave; [|discriminate].
  cbn [bind] in H. injection H as <-.
  exists file, config, t, t'. cbn [saved opened stats pxs].
  repeat split; assumption.
Qed.

(** A run that completes has printed [printed_stats]. *)
Lemma main_printed_stats (set_0_ncn : bool) (listing : list string)
      (read_csv : string -> list RawRow) (cfg : config_file) (out : Output) :
  main set_0_ncn listing read_csv cfg = Ok out ->
  printed_stats set_0_ncn listing read_csv cfg = Ok (stats out).
Proof.
  intros H.
  destruct (main_stages _ _ _ _ _ H)
    as (file & config & t & t' & Hopen & Hcfg & Hgr & _ & _ & _ & Hst & _).
  unfold printed_stats. rewrite Hopen. cbn [bind]. rewrite Hcfg. cbn [bind].
  rewrite Hgr. cbn [bind]. now rewrite Hst.
Qed.

(** C1, as the specification states it, fails: the statistics are
    printed after the withdrawal filter.  A student withdrawn by an
    override is in the table that the overrides leave, and in none of
    the cohorts of the report. *)
Lemma C1_stats_before_filter_counterexample :
  exists t out,
    graded false (Some withdrawn_config) [jane; mary] = Ok t
    /\ main false sample_listing (fun _ => [jane; mary])
            (ConfigParsed withdrawn_config) = Ok out
    /\ printed_stats false sample_listing (fun _ => [jane; mary])
                     (ConfigParsed withdrawn_config) = Ok (stats out)
    /\ count_grade "WD" t = 1
    /\ map enrolment (print_all_stats (courses_of [jane; mary]) t) = [2; 2]
    /\ map enrolment (stats out) = [1; 1]
    /\ map grade_counts (stats out)
       = [["Grade Value Counts"; "HD: 1 (100.00%)"];
          ["Grade Value Counts"; "HD: 1 (100.00%)"]]
    /\ stats out <> print_all_stats (courses_of [jane; mary]) t.
Proof.
  eexists. eexists.
  split; [vm_compute; reflexivity|].
  split; [vm_compute; reflexivity|].
  split; [reflexivity|].
  split; [reflexivity|]. split; [reflexivity|]. split; [reflexivity|].
  split; [reflexivity|].
  intros H. apply (f_equal (map enrolment)) in H. discriminate H.
Qed.

(** C1, amended.  The cohort reporter is invoked after the overrides
    and after the withdrawal filter: whenever the run gets to print
    its statistics, those of the full table and of each course are
    computed over the filtered table, so no row graded WD or WN is in
    any cohort over which enrolment, mark statistics and grade counts
    are computed, and the counts of WD and WN are zero in each. *)
Theorem C1_stats_after_withdrawal_filter
        (set_0_ncn : bool) (listing : list string)
        (read_csv : string -> list RawRow) (cfg : config_file)
        (printed : list Stats) :
  printed_stats set_0_ncn listing read_csv cfg = Ok printed ->
  exists file config t,
    opening listing = Ok file
    /\ load_config cfg = Ok config
    /\ graded set_0_ncn config (read_csv file) = Ok t
    /\ printed
       = print_all_stats (courses_of (read_csv file)) (remove_withdrawn t)
    /\ forall s, In s printed ->
         exists df,
           s = print_stats (title s) df
           /\ (forall r, In r df ->
                 In r t /\ grade r <> "WD" /\ grade r <> "WN")
           /\ count_grade "WD" df = 0 /\ count_grade "WN" df = 0.
Proof.
  unfold printed_stats. intros H.
  destruct (opening listing) as [file|] eqn:Hopen; [|discriminate].
  destruct (load_config cfg) as [config|] eqn:Hcfg; [|discriminate].
  cbn [bind] in H.
  destruct (graded set_0_ncn config (read_csv file)) as [t|] eqn:Hgr;
    [|discriminate].
  cbn [bind] in H. injection H as <-.
  exists file, config, t. repeat (split; [assumption || reflexivity|]).
  intros s Hs.
  assert (Hdf : exists df, s = print_stats (title s) df
                           /\ incl df (remove_withdrawn t)).
  { destruct Hs as [<- | Hs].
    - exists (remove_withdrawn t). split; [reflexivity | apply incl_refl].
    - apply in_map_iff in Hs. destruct Hs as (c & <- & _).
      exists (of_course c (remove_withdrawn t)). split; [reflexivity|].
      intros r Hr. unfold of_course in Hr. now apply filter_In in Hr. }
  destruct Hdf as (df & Hs' & Hincl). exists df.
  assert (Hrows : forall r, In r df ->
                    In r t /\ grade r <> "WD" /\ grade r <> "WN")
    by (intros r Hr; now apply remove_withdrawn_grades, Hincl).
  repeat split; try assumption; try (now apply Hrows).
  - apply count_grade_none. intros r Hr. now apply Hrows.
  - apply count_grade_none. intros r Hr. now apply Hrows.
Qed.

(** ** The export *)

(** C5, as the specification states it, fails on the first column:
    the file holds the student number, not the uid. *)
Lemma C5_exported_uid_counterexample :
  exists out,
    main false sample_listing (fun _ => [jane])
         (ConfigParsed plain_config) = Ok out
    /\ saved out
       = [("3430-COMP-1100-4567.csv",
           ["uid,mark,grade,firstname,surname,course";
            "1234567,82,HD,Jane,Doe,COMP1100"])]
    /\ saved out
       <> [("3430-COMP-1100-4567.csv",
            ["uid,mark,grade,firstname,surname,course";
             "u1234567,82,HD,Jane,Doe,COMP1100"])].
Proof.
  eexists. split; [vm_compute; reflexivity|].
  split; [reflexivity | discriminate].
Qed.

Lemma course_of_comp1100 (rest : string) :
  course_of ("COMP1100" ++ rest) = "COMP1100".
Proof. unfold course_of. simpl. now destruct rest. Qed.

(** C5, amended.  For the input row with course COMP1100, mark 82,
    first name Jane, last name Doe and student number 1234567, with
    the zero flag off and no override: the derived grade is HD, the
    mark stays 82, and the row is written to the file named
    [{term}-COMP-1100-{class}.csv] under the header
    [uid,mark,grade,firstname,surname,course] as
    [1234567,82,HD,Jane,Doe,COMP1100], the first column holding the
    student number without the letter u. *)
Theorem C5_jane_doe_export
        (listing : list string) (file : string)
        (read_csv : string -> list RawRow) (config : Config)
        (cc : CourseConfig) (rest : string) :
  opening listing = Ok file ->
  read_csv file = [mkRaw ("COMP1100" ++ rest) 1234567 82 "Jane" "Doe"] ->
  lookup "COMP1100" config = Ok cc ->
  cfg_subject cc = YStr "COMP" ->
  cfg_catalogue cc = YInt 1100 ->
  cfg_grades cc = GradesNone \/ cfg_grades cc = GradesMap [] ->
  exists out,
    main false listing read_csv (ConfigParsed config) = Ok out
    /\ graded false (Some config) (read_csv file)
       = Ok [mkRow "u1234567" (Some 1234567) (Int 82) (Some "Jane")
                   (Some "Doe") (Some "COMP1100") "HD"]
    /\ saved out
       = [(str_yaml (cfg_term cc) ++ "-COMP-1100-" ++ str_yaml (cfg_class cc)
             ++ ".csv",
           ["uid,mark,grade,firstname,surname,course";
            "1234567,82,HD,Jane,Doe,COMP1100"])].
Proof.
  intros Hopen Hread Hcc Hsub Hcat Hgr.
  assert (Hcourses : courses_of (read_csv file) = ["COMP1100"]).
  { rewrite Hread. unfold courses_of. cbn [map Enrol_Reason].
    now rewrite course_of_comp1100. }
  assert (Hgraded : graded false (Some config) (read_csv file)
            = Ok [mkRow "u1234567" (Some 1234567) (Int 82) (Some "Jane")
                        (Some "Doe") (Some "COMP1100") "HD"]).
  { unfold graded. rewrite Hcourses, Hread.
    unfold add_grades. cbn [map Enrol_Reason Student_Number raw_mark
                                raw_First_name raw_Last_name].
    rewrite course_of_comp1100.
    cbn [add_special_grades config_at]. rewrite Hcc. cbn [bind].
    destruct Hgr as [-> | ->]; reflexivity. }
  eexists. split; [|split; [exact Hgraded|]].
  - unfold main. rewrite Hopen. cbn [bind load_config].
    rewrite Hgraded, Hcourses. cbn [bind].
    change (copy_interim (remove_withdrawn ?t)) with (Ok t).
    cbn [bind save_csvs config_at]. rewrite Hcc. cbn [bind]. reflexivity.
  - cbn [saved]. unfold sas_filename. rewrite Hsub, Hcat. reflexivity.
Qed.

Lemma C5_jane_doe_export_witness :
  exists out,
    main false sample_listing (fun _ => [jane])
         (ConfigParsed plain_config) = Ok out
    /\ graded false (Some plain_config) [jane]
       = Ok [mkRow "u1234567" (Some 1234567) (Int 82) (Some "Jane")
                   (Some "Doe") (Some "COMP1100") "HD"]
    /\ saved out
       = [("3430" ++ "-COMP-1100-" ++ "4567" ++ ".csv",
           ["uid,mark,grade,firstname,surname,course";
            "1234567,82,HD,Jane,Doe,COMP1100"])].
Proof.
  apply (C5_jane_doe_export sample_listing "grades_for_SAS.csv"
           (fun _ => [jane])
           plain_config
           (comp 1100 4567 GradesNone) "").
  - reflexivity.
  - reflexivity.
  - reflexivity.
  - reflexivity.
  - reflexivity.
  - left. reflexivity.
Defined.

(** ** Repeated uids *)

Lemma filter_has_uid_count (u : string) (t : list Row) :
  length (filter (has_uid u) t) = count_occ string_dec (map uid t) u.
Proof.
  induction t as [|r t IH]; simpl; [reflexivity|].
  unfold has_uid at 1.
  destruct (string_dec (uid r) u) as [E|E].
  - apply String.eqb_eq in E. rewrite E. simpl. now rewrite IH.
  - apply String.eqb_neq in E. now rewrite E.
Qed.

Lemma at_grade_in_repeated (u : string) (codes : list string) (t : list Row) :
  (2 <= count_occ string_dec (map uid t) u)%nat ->
  at_grade_in u codes t = Raise ValueError.
Proof.
  rewrite <- filter_has_uid_count. unfold at_grade_in.
  destruct (filter (has_uid u) t) as [|r [|r' l]]; simpl; intros H;
    [lia | lia | reflexivity].
Qed.

Lemma map_uid_at_set_mark (u : string) (m : cell) (t : list Row) :
  map uid (at_set_mark u m t) = map uid t.
Proof.
  unfold at_set_mark. rewrite map_map. apply map_ext. intros r.
  now destruct (has_uid u r).
Qed.

Lemma copy_interim_from_repeated (index : list string) (t : list Row)
      (u : string) :
  In u index -> (2 <= count_occ string_dec (map uid t) u)%nat ->
  forall t', copy_interim_from index t <> Ok t'.
Proof.
  revert t. induction index as [|v rest IH]; intros t Hin Hu t';
    [destruct Hin|].
  cbn [copy_interim_from].
  destruct (at_grade_in v interim_codes t) as [g|e] eqn:Hg; [|discriminate].
  cbn [bind]. destruct Hin as [-> | Hin].
  - rewrite at_grade_in_repeated in Hg by exact Hu. discriminate.
  - destruct g as [code|]; apply IH; try assumption.
    now rewrite map_uid_at_set_mark.
Qed.

(** The loop of lines 177-180 completes only on distinct uids: under
    a repeated uid the membership test of line 179 raises. *)
Lemma copy_interim_ok_unique (t t' : list Row) :
  copy_interim t = Ok t' -> NoDup (map uid t).
Proof.
  intros H. apply (NoDup_count_occ string_dec). intros u.
  destruct (le_gt_dec (count_occ string_dec (map uid t) u) 1) as [|Hgt];
    [assumption | exfalso].
  apply (copy_interim_from_repeated (map uid t) t u) with (t' := t');
    [|lia | exact H].
  apply (count_occ_In string_dec). lia.
Qed.

(** ** Runs on the sample inputs *)

Lemma C7_copy_interim_marks_only_witness :
  copy_interim (add_grades false [jane; mary])
  = Ok (map interim_row (add_grades false [jane; mary]))
  /\ forall r,
      (In (grade r) ["DA"; "PX"; "RP"; "KU"; "NCN"] ->
       mark (interim_row r) = Str (grade r))
      /\ (~ In (grade r) ["DA"; "PX"; "RP"; "KU"; "NCN"] ->
          mark (interim_row r) = mark r)
      /\ uid (interim_row r) = uid r
      /\ number (interim_row r) = number r
      /\ First_name (interim_row r) = First_name r
      /\ Last_name (interim_row r) = Last_name r
      /\ course_code (interim_row r) = course_code r
      /\ grade (interim_row r) = grade r.
Proof.
  apply C7_copy_interim_marks_only.
  simpl. constructor.
  - simpl. intros [H | []]. discriminate H.
  - constructor; [intros [] | constructor].
Defined.

Lemma C8_print_value_counts_spec_witness :
  print_value_counts (add_grades false [jane; mary])
  = ["Grade Value Counts"; "HD: 1 (50.00%)"; "PX: 1 (50.00%)"].
Proof.
  destruct (C8_print_value_counts_spec (add_grades false [jane; mary]))
    as (count & pct & Hcount & Hpct & ->); [reflexivity|].
  assert (Hhd : count "HD" = 1) by (rewrite Hcount; reflexivity).
  assert (Hpx : count "PX" = 1) by (rewrite Hcount; reflexivity).
  assert (Phd : pct "HD" = 5000).
  { pose proof (Hpct "HD") as H. rewrite Hhd in H.
    change (Z.of_nat (length (add_grades false [jane; mary]))) with 2 in H.
    lia. }
  assert (Ppx : pct "PX" = 5000).
  { pose proof (Hpct "PX") as H. rewrite Hpx in H.
    change (Z.of_nat (length (add_grades false [jane; mary]))) with 2 in H.
    lia. }
  rewrite (filter_ext (fun g => 0 <? count g)
             (fun g => 0 <? Z.of_nat
                             (count_occ string_dec
                                (map grade (add_grades false [jane; mary])) g)))
    by (intros g; now rewrite Hcount).
  replace (filter
             (fun g => 0 <? Z.of_nat
                             (count_occ string_dec
                                (map grade (add_grades false [jane; mary])) g))
             ["HD"; "D"; "CR"; "P"; "PX"; "N"; "NCN";
              "DA"; "RP"; "KU"; "WD"; "WN"])
    with ["HD"; "PX"] by reflexivity.
  cbn [map]. rewrite Hhd, Hpx, Phd, Ppx. reflexivity.
Defined.

Lemma C1_stats_after_withdrawal_filter_witness :
  exists file config t,
    opening sample_listing = Ok file
    /\ load_config (ConfigParsed withdrawn_config) = Ok config
    /\ graded false config [jane; mary] = Ok t
    /\ print_all_stats ["COMP1100"] (add_grades false [jane])
       = print_all_stats (courses_of [jane; mary]) (remove_withdrawn t)
    /\ forall s, In s (print_all_stats ["COMP1100"] (add_grades false [jane])) ->
         exists df,
           s = print_stats (title s) df
           /\ (forall r, In r df ->
                 In r t /\ grade r <> "WD" /\ grade r <> "WN")
           /\ count_grade "WD" df = 0 /\ count_grade "WN" df = 0.
Proof.
  apply (C1_stats_after_withdrawal_filter false sample_listing
           (fun _ => [jane; mary]) (ConfigParsed withdrawn_config)).
  reflexivity.
Defined.

(** * Further properties *)

(** ** What the frame at line 128 is *)

Lemma number_astype_int_ok (t t' : list Row) :
  number_astype_int t = Ok t'
  <-> t' = t /\ forall r, In r t -> number r <> None.
Proof.
  revert t'. induction t as [|r t IH]; intros t'; simpl.
  - split.
    + intros H. injection H as <-. split; [reflexivity | intros r []].
    + intros [-> _]. reflexivity.
  - destruct (number r) as [n|] eqn:Hn.
    + destruct (number_astype_int t) as [rest|e]; simpl.
      * destruct (proj1 (IH rest) eq_refl) as [-> Hall]. split.
        -- intros H. injection H as <-. split; [reflexivity|].
           intros r' [<- | Hr']; [congruence | now apply Hall].
        -- intros [-> _]. reflexivity.
      * split; [discriminate|]. intros [_ Hall]. exfalso.
        assert (Hok : Raise e = Ok t); [|discriminate Hok].
        apply IH. split; [reflexivity|]. intros r' Hr'. apply Hall.
        now right.
    + split; [discriminate|]. intros [_ Hall]. exfalso.
      apply (Hall r); [now left | exact Hn].
Qed.

Lemma mark_astype_int_ok (t t' : list Row) :
  mark_astype_int t = Ok t'
  <-> t' = t /\ forall r, In r t -> exists z, mark r = Int z.
Proof.
  revert t'. induction t as [|r t IH]; intros t'; simpl.
  - split.
    + intros H. injection H as <-. split; [reflexivity | intros r []].
    + intros [-> _]. reflexivity.
  - destruct (mark r) as [z|s|] eqn:Hm.
    + destruct (mark_astype_int t) as [rest|e]; simpl.
      * destruct (proj1 (IH rest) eq_refl) as [-> Hall]. split.
        -- intros H. injection H as <-. split; [reflexivity|].
           intros r' [<- | Hr']; [now exists z | now apply Hall].
        -- intros [-> _]. reflexivity.
      * split; [discriminate|]. intros [_ Hall]. exfalso.
        assert (Hok : Raise e = Ok t); [|discriminate Hok].
        apply IH. split; [reflexivity|]. intros r' Hr'. apply Hall.
        now right.
    + split; [discriminate|]. intros [_ Hall]. exfalso.
      destruct (Hall r) as [z Hz]; [now left | congruence].
    + split; [discriminate|]. intros [_ Hall]. exfalso.
      destruct (Hall r) as [z Hz]; [now left | congruence].
Qed.

Lemma override_rows_overridden (m : list (string * string)) (r : Row) :
  override_rows m r = overridden m r.
Proof. apply override_rows_last. Qed.

Lemma overridden_columns (m : list (string * string)) (r : Row) :
  uid (overridden m r) = uid r
  /\ number (overridden m r) = number r
  /\ mark (overridden m r) = mark r
  /\ First_name (overridden m r) = First_name r
  /\ Last_name (overridden m r) = Last_name r
  /\ course_code (overridden m r) = course_code r.
Proof.
  unfold overridden. destruct (last_code (uid r) m); repeat split.
Qed.

(** The entries applied: the rows of the table with their grades
    overridden, followed by the rows that unknown uids have added,
    none of which has a student number. *)
Lemma apply_grades_shape (m : list (string * string)) (t : list Row) :
  exists extra,
    apply_grades m t = (map (override_rows m) t ++ extra)%list
    /\ (forall r, In r extra -> number r = None)
    /\ (extra = [] ->
        forall u g, In (u, g) m -> existsb (has_uid u) t = true).
Proof.
  revert t. induction m as [|[u c] m IH]; intros t.
  - exists []. simpl. rewrite map_id, app_nil_r.
    repeat split; intros; contradiction.
  - change (apply_grades ((u, c) :: m) t)
      with (apply_grades m (at_set_grade u c t)).
    destruct (existsb (has_uid u) t) eqn:Hu.
    + rewrite at_set_grade_present by exact Hu.
      destruct (IH (map (override_row u c) t)) as (extra & Heq & Hnone & Hall).
      exists extra. rewrite Heq, map_map. repeat split; try assumption.
      intros He v g [E | Hin].
      * injection E as <- <-. exact Hu.
      * rewrite <- (existsb_override_row v u c). now apply (Hall He v g).
    + rewrite at_set_grade_absent by exact Hu.
      destruct (IH (t ++ [new_row u c])%list) as (extra & Heq & Hnone & _).
      exists (override_rows m (new_row u c) :: extra).
      rewrite Heq, map_app, <- app_assoc. simpl.
      split; [|split; [|discriminate]].
      { f_equal. apply map_ext_in. intros r Hr.
        change (override_rows ((u, c) :: m) r)
          with (override_rows m (override_row u c r)).
        unfold override_row. destruct (has_uid u r) eqn:E; [|reflexivity].
        exfalso. rewrite <- not_true_iff_false in Hu. apply Hu.
        apply existsb_exists. now exists r. }
      intros r [<- | Hr]; [|now apply Hnone].
      rewrite override_rows_overridden.
      now rewrite (proj1 (proj2 (overridden_columns m (new_row u c)))).
Qed.

Lemma unique_In (x : string) (xs : list string) :
  In x (unique xs) <-> In x xs.
Proof.
  induction xs as [|a xs IH]; simpl; [tauto|].
  rewrite filter_In, IH, negb_true_iff, String.eqb_neq.
  destruct (string_dec a x) as [->|Hne]; [tauto|].
  split; [tauto|]. intros [H | H]; [contradiction|].
  right. split; [exact H | congruence].
Qed.

Lemma NoDup_filter {A : Type} (p : A -> bool) (l : list A) :
  NoDup l -> NoDup (filter p l).
Proof.
  induction 1 as [|a l Hnotin Hnd IH]; simpl; [constructor|].
  destruct (p a); [|exact IH]. constructor; [|exact IH].
  intros H. apply filter_In in H. tauto.
Qed.

Lemma unique_NoDup (xs : list string) : NoDup (unique xs).
Proof.
  induction xs as [|a xs IH]; simpl; constructor.
  - intros H. apply filter_In in H. destruct H as [_ H].
    now rewrite String.eqb_refl in H.
  - now apply NoDup_filter.
Qed.

Lemma add_grades_complete (set_0_ncn : bool) (raw : list RawRow) (r : Row) :
  In r (add_grades set_0_ncn raw) ->
  (exists n, number r = Some n /\ uid r = uid_of n)
  /\ (exists z, mark r = Int z /\ grade r = generate_grade set_0_ncn z)
  /\ exists c, course_code r = Some c /\ In c (courses_of raw).
Proof.
  unfold add_grades. intros H. apply in_map_iff in H.
  destruct H as (x & <- & Hx). simpl. repeat split.
  - now exists (Student_Number x).
  - now exists (raw_mark x).
  - exists (course_of (Enrol_Reason x)). split; [reflexivity|].
    unfold courses_of. apply unique_In.
    now apply (in_map (fun r => course_of (Enrol_Reason r))).
Qed.

Lemma add_grades_uids (set_0_ncn : bool) (raw : list RawRow) :
  map uid (add_grades set_0_ncn raw) = raw_uids raw.
Proof. unfold add_grades, raw_uids. now rewrite map_map. Qed.

Lemma has_uid_In (u : string) (t : list Row) :
  existsb (has_uid u) t = true <-> In u (map uid t).
Proof.
  rewrite existsb_exists, in_map_iff. unfold has_uid.
  split; intros (r & H1 & H2).
  - apply String.eqb_eq in H2. now exists r.
  - exists r. split; [assumption|]. now apply String.eqb_eq.
Qed.

(** The frame at line 128, when the run gets there. *)
Lemma graded_ok (set_0_ncn : bool) (config : option Config)
      (raw : list RawRow) (t : list Row) :
  graded set_0_ncn config raw = Ok t
  <-> exists m,
      special_grades_of config (courses_of raw) = Ok m
      /\ (forall u g, In (u, g) m -> In u (raw_uids raw))
      /\ t = map (overridden m) (add_grades set_0_ncn raw).
Proof.
  unfold graded. rewrite add_special_grades_entries. split.
  - destruct (special_grades_of config (courses_of raw)) as [m|e];
      [|discriminate]. cbn [bind]. intros H. exists m.
    split; [reflexivity|].
    destruct (apply_grades_shape m (add_grades set_0_ncn raw))
      as (extra & Heq & Hnone & Hall).
    rewrite Heq in H.
    destruct (number_astype_int
                (map (override_rows m) (add_grades set_0_ncn raw) ++ extra))
      as [t1|e] eqn:Hnum; [|discriminate]. cbn [bind] in H.
    apply number_astype_int_ok in Hnum. destruct Hnum as [-> Hsome].
    apply mark_astype_int_ok in H. destruct H as [-> _].
    assert (He : extra = []).
    { destruct extra as [|x extra]; [reflexivity|]. exfalso.
      apply (Hsome x); [apply in_or_app; right; now left|].
      apply Hnone. now left. }
    subst extra. rewrite app_nil_r. split.
    + intros u g Hin. rewrite <- (add_grades_uids set_0_ncn).
      apply has_uid_In. now apply (Hall eq_refl u g).
    + apply map_ext. intros r. apply override_rows_overridden.
  - intros (m & -> & Hpresent & ->). cbn [bind].
    rewrite apply_grades_all_present.
    + assert (Hnum : number_astype_int
                       (map (override_rows m) (add_grades set_0_ncn raw))
                     = Ok (map (override_rows m) (add_grades set_0_ncn raw))).
      { apply number_astype_int_ok. split; [reflexivity|].
        intros r Hr. apply in_map_iff in Hr. destruct Hr as (r0 & <- & Hr0).
        rewrite override_rows_overridden.
        rewrite (proj1 (proj2 (overridden_columns m r0))).
        destruct (add_grades_complete _ _ _ Hr0) as [(n & Hn & _) _].
        congruence. }
      rewrite Hnum. cbn [bind].
      rewrite (map_ext _ _ (override_rows_overridden m)).
      apply mark_astype_int_ok. split; [reflexivity|].
      intros r Hr. apply in_map_iff in Hr. destruct Hr as (r0 & <- & Hr0).
      rewrite (proj1 (proj2 (proj2 (overridden_columns m r0)))).
      destruct (add_grades_complete _ _ _ Hr0) as (_ & (z & Hz & _) & _).
      now exists z.
    + intros u g Hin. apply has_uid_In. rewrite add_grades_uids.
      now apply (Hpresent u g).
Qed.

Lemma special_grades_of_has_grades (config : option Config)
      (courses : list string) (m : list (string * string)) (c : string) :
  special_grades_of config courses = Ok m -> In c courses ->
  exists cc, config_at config c = Ok cc /\ cfg_grades cc <> GradesAbsent.
Proof.
  revert m. induction courses as [|c' rest IH]; intros m Hm Hin;
    [destruct Hin|].
  simpl in Hm. destruct (config_at config c') as [cc'|e] eqn:Hc';
    [|discriminate]. cbn [bind] in Hm.
  destruct Hin as [<- | Hin].
  - exists cc'. split; [exact Hc'|].
    destruct (cfg_grades cc'); [discriminate Hm | discriminate | discriminate].
  - destruct (cfg_grades cc'); [discriminate | now apply (IH m) |].
    destruct (special_grades_of config rest) as [ms|]; [|discriminate].
    now apply (IH ms).
Qed.

(** X1.  On an export whose student numbers and marks are whole
    numbers, a run that gets past the integer coercion of lines
    126-127 has found, for every course of the export, a configuration
    entry with a [grades] key, and every override entry names a student
    of the export; the frame at line 128 is then the export's rows in
    their order, each with its derived grade or with the code of the
    last entry that names its uid, every other column as it was
    loaded. *)
Theorem X1_graded_frame (set_0_ncn : bool) (config : option Config)
        (raw : list RawRow) (t : list Row) :
  graded set_0_ncn config raw = Ok t ->
  exists m,
    special_grades_of config (courses_of raw) = Ok m
    /\ (forall c, In c (courses_of raw) ->
          exists cc, config_at config c = Ok cc
                     /\ cfg_grades cc <> GradesAbsent)
    /\ (forall u g, In (u, g) m -> In u (raw_uids raw))
    /\ t = map (overridden m) (add_grades set_0_ncn raw)
    /\ forall r, In r (add_grades set_0_ncn raw) ->
         uid (overridden m r) = uid r
         /\ number (overridden m r) = number r
         /\ mark (overridden m r) = mark r
         /\ First_name (overridden m r) = First_name r
         /\ Last_name (overridden m r) = Last_name r
         /\ course_code (overridden m r) = course_code r
         /\ grade (overridden m r)
            = match last_code (uid r) m with
              | Some g => g
              | None => grade r
              end.
Proof.
  intros H. apply graded_ok in H. destruct H as (m & Hm & Hin & ->).
  exists m. split; [exact Hm|]. split; [|split; [exact Hin|split; [reflexivity|]]].
  - intros c Hc. exact (special_grades_of_has_grades _ _ m c Hm Hc).
  - intros r _. unfold overridden.
    destruct (last_code (uid r) m); repeat split; reflexivity.
Qed.

Lemma X1_graded_frame_witness :
  exists m,
    special_grades_of (Some withdrawn_config) (courses_of [jane; mary]) = Ok m
    /\ (forall c, In c (courses_of [jane; mary]) ->
          exists cc, config_at (Some withdrawn_config) c = Ok cc
                     /\ cfg_grades cc <> GradesAbsent)
    /\ (forall u g, In (u, g) m -> In u (raw_uids [jane; mary]))
    /\ [mkRow "u1234567" (Some 1234567) (Int 82) (Some "Jane") (Some "Doe")
              (Some "COMP1100") "HD";
        mkRow "u2345678" (Some 2345678) (Int 47) (Some "Mary") (Some "Major")
              (Some "COMP1100") "WD"]
       = map (overridden m) (add_grades false [jane; mary])
    /\ forall r, In r (add_grades false [jane; mary]) ->
         uid (overridden m r) = uid r
         /\ number (overridden m r) = number r
         /\ mark (overridden m r) = mark r
         /\ First_name (overridden m r) = First_name r
         /\ Last_name (overridden m r) = Last_name r
         /\ course_code (overridden m r) = course_code r
         /\ grade (overridden m r)
            = match last_code (uid r) m with
              | Some g => g
              | None => grade r
              end.
Proof.
  apply (X1_graded_frame false (Some withdrawn_config) [jane; mary]).
  reflexivity.
Defined.

(** ** Configuration errors *)

Lemma lookup_missing (c : string) (cfg : Config) :
  (forall cc, ~ In (c, cc) cfg) -> lookup c cfg = Raise (KeyError c).
Proof.
  induction cfg as [|[k v] cfg IH]; intros H; simpl; [reflexivity|].
  destruct (String.eqb_spec k c) as [->|_].
  - exfalso. apply (H v). now left.
  - apply IH. intros cc Hin. apply (H cc). now right.
Qed.

Lemma lookup_found (c : string) (cfg : Config) (cc : CourseConfig) :
  lookup c cfg = Ok cc -> In (c, cc) cfg.
Proof.
  induction cfg as [|[k v] cfg IH]; simpl; [discriminate|].
  destruct (String.eqb_spec k c) as [->|_].
  - intros H. injection H as ->. now left.
  - intros H. right. now apply IH.
Qed.

(** The special grades loop stops at the first course that it cannot
    read. *)
Lemma add_special_grades_first_error (config : option Config)
      (pre post : list string) (c : string) (e : exn) (t : list Row) :
  (forall c', In c' pre ->
     exists cc, config_at config c' = Ok cc /\ cfg_grades cc <> GradesAbsent) ->
  config_at config c = Raise e ->
  add_special_grades config (pre ++ c :: post) t = Raise e.
Proof.
  revert t. induction pre as [|p pre IH]; intros t Hpre Hc; simpl.
  - now rewrite Hc.
  - destruct (Hpre p) as (cc & Hcc & Hg); [now left|].
    rewrite Hcc. cbn [bind].
    assert (Hrest : forall c', In c' pre ->
              exists cc, config_at config c' = Ok cc
                         /\ cfg_grades cc <> GradesAbsent)
      by (intros c' Hin; apply Hpre; now right).
    destruct (cfg_grades cc); [contradiction | |]; now apply IH.
Qed.

(** X2.  A course of the export without an entry in the configuration
    stops the run with [KeyError] on that course's code, before any
    statistics are printed or any file is written, when the courses
    that come before it in the export have entries with a [grades]
    key. *)
Theorem X2_missing_course_is_fatal
        (set_0_ncn : bool) (listing : list string) (file : string)
        (read_csv : string -> list RawRow) (cfg : Config)
        (pre post : list string) (c : string) :
  opening listing = Ok file ->
  courses_of (read_csv file) = (pre ++ c :: post)%list ->
  (forall c', In c' pre ->
     exists cc, lookup c' cfg = Ok cc /\ cfg_grades cc <> GradesAbsent) ->
  (forall cc, ~ In (c, cc) cfg) ->
  main set_0_ncn listing read_csv (ConfigParsed cfg) = Raise (KeyError c)
  /\ printed_stats set_0_ncn listing read_csv (ConfigParsed cfg)
     = Raise (KeyError c).
Proof.
  intros Hopen Hcourses Hpre Hc.
  assert (Hgr : graded set_0_ncn (Some cfg) (read_csv file)
                = Raise (KeyError c)).
  { unfold graded. rewrite Hcourses.
    rewrite (add_special_grades_first_error (Some cfg) pre post c (KeyError c));
      [reflexivity | exact Hpre |].
    simpl. now apply lookup_missing. }
  unfold main, printed_stats. rewrite Hopen. cbn [bind load_config].
  now rewrite Hgr.
Qed.

Lemma X2_missing_course_is_fatal_witness :
  main false sample_listing (fun _ => [jane; john]) (ConfigParsed plain_config)
  = Raise (KeyError "COMP2100")
  /\ printed_stats false sample_listing (fun _ => [jane; john])
                   (ConfigParsed plain_config)
     = Raise (KeyError "COMP2100").
Proof.
  apply (X2_missing_course_is_fatal false sample_listing "grades_for_SAS.csv"
           (fun _ => [jane; john]) plain_config ["COMP1100"] [] "COMP2100").
  - reflexivity.
  - reflexivity.
  - intros c' [<- | []]. eexists. split; [reflexivity | discriminate].
  - intros cc [H | []]. discriminate H.
Defined.

Lemma courses_of_nonempty (raw : list RawRow) :
  raw <> [] -> exists c rest, courses_of raw = c :: rest.
Proof.
  destruct raw as [|r raw]; [contradiction|]. intros _.
  unfold courses_of. simpl. eauto.
Qed.

(** X3.  When [grade_config.yml] does not parse, the error is printed
    and the run goes on without a configuration: on an export without
    rows it completes, printing the statistics of an empty cohort and
    writing no file; on any other export it stops with [NameError] at
    the first use of [config]. *)
Theorem X3_malformed_config
        (set_0_ncn : bool) (listing : list string) (file : string)
        (read_csv : string -> list RawRow) :
  opening listing = Ok file ->
  (read_csv file = [] ->
   main set_0_ncn listing read_csv ConfigMalformed
   = Ok (mkOutput file
                  [mkStats "All Cohorts" 0 [] ["Grade Value Counts"]]
                  None []))
  /\ (read_csv file <> [] ->
      main set_0_ncn listing read_csv ConfigMalformed
      = Raise (NameError "config")).
Proof.
  intros Hopen. unfold main. rewrite Hopen. cbn [bind load_config]. split.
  - intros ->. reflexivity.
  - intros Hne. destruct (courses_of_nonempty _ Hne) as (c & rest & Hc).
    unfold graded. rewrite Hc. reflexivity.
Qed.

Lemma X3_malformed_config_witness :
  main false sample_listing (fun _ => []) ConfigMalformed
  = Ok (mkOutput "grades_for_SAS.csv"
                 [mkStats "All Cohorts" 0 [] ["Grade Value Counts"]]
                 None [])
  /\ main false sample_listing (fun _ => [jane]) ConfigMalformed
     = Raise (NameError "config").
Proof.
  split.
  - apply (X3_malformed_config false sample_listing "grades_for_SAS.csv"
             (fun _ => [])); reflexivity.
  - apply (X3_malformed_config false sample_listing "grades_for_SAS.csv"
             (fun _ => [jane])); [reflexivity | discriminate].
Defined.

(** ** Where grades come from *)

Lemma generate_grade_derived (set_0_ncn : bool) (m : Z) :
  In (generate_grade set_0_ncn m) derived_labels.
Proof.
  unfold generate_grade, derived_labels.
  leb_cases; destruct set_0_ncn; simpl; tauto.
Qed.

(** X4.  In the frame at line 128 a grade outside the seven derived
    labels (a withdrawal, a deferral, a pending result) is never the
    deriver's: the row's uid is named by an override entry of the
    configuration, and the grade is the code of the last such entry. *)
Theorem X4_special_grade_is_configured
        (set_0_ncn : bool) (config : option Config) (raw : list RawRow)
        (t : list Row) (r : Row) :
  graded set_0_ncn config raw = Ok t ->
  In r t ->
  ~ In (grade r) derived_labels ->
  exists m,
    special_grades_of config (courses_of raw) = Ok m
    /\ In (uid r, grade r) m
    /\ last_code (uid r) m = Some (grade r).
Proof.
  intros Hgr Hr Hspecial.
  apply graded_ok in Hgr. destruct Hgr as (m & Hm & _ & ->).
  exists m. split; [exact Hm|].
  apply in_map_iff in Hr. destruct Hr as (r0 & <- & Hr0).
  unfold overridden in *.
  destruct (last_code (uid r0) m) as [g|] eqn:Hlast.
  - simpl. split; [now apply last_code_In | exact Hlast].
  - exfalso. apply Hspecial.
    destruct (add_grades_complete _ _ _ Hr0) as (_ & (z & _ & ->) & _).
    apply generate_grade_derived.
Qed.

Lemma X4_special_grade_is_configured_witness :
  exists m,
    special_grades_of (Some withdrawn_config) (courses_of [jane; mary]) = Ok m
    /\ In (uid (set_grade (mkRow "u2345678" (Some 2345678) (Int 47)
                                 (Some "Mary") (Some "Major")
                                 (Some "COMP1100") "PX") "WD"),
           grade (set_grade (mkRow "u2345678" (Some 2345678) (Int 47)
                                   (Some "Mary") (Some "Major")
                                   (Some "COMP1100") "PX") "WD")) m
    /\ last_code (uid (set_grade (mkRow "u2345678" (Some 2345678) (Int 47)
                                        (Some "Mary") (Some "Major")
                                        (Some "COMP1100") "PX") "WD")) m
       = Some (grade (set_grade (mkRow "u2345678" (Some 2345678) (Int 47)
                                       (Some "Mary") (Some "Major")
                                       (Some "COMP1100") "PX") "WD")).
Proof.
  eapply (X4_special_grade_is_configured false (Some withdrawn_config)
            [jane; mary]).
  - reflexivity.
  - right. left. reflexivity.
  - simpl. intros H. repeat (destruct H as [H | H]; [discriminate H|]).
    exact H.
Defined.

(** ** Runs that complete *)

Lemma copy_interim_distinct (t : list Row) :
  NoDup (map uid t) -> copy_interim t = Ok (map interim_row t).
Proof.
  intros Hnd. unfold copy_interim.
  rewrite copy_interim_from_unique by (assumption || apply incl_refl).
  f_equal. apply map_ext_in. intros r Hr.
  assert (str_in (uid r) (map uid t) = true) as ->; [|reflexivity].
  apply str_in_In. now apply in_map.
Qed.

Lemma special_grades_of_configured (config : option Config)
      (courses : list string) (m : list (string * string)) (c : string) :
  special_grades_of config courses = Ok m -> In c courses ->
  exists cc, config_at config c = Ok cc.
Proof.
  revert m. induction courses as [|c' rest IH]; intros m Hm Hin;
    [destruct Hin|].
  simpl in Hm. destruct (config_at config c') as [cc'|e] eqn:Hc';
    [|discriminate]. cbn [bind] in Hm.
  destruct Hin as [<- | Hin]; [now exists cc'|].
  destruct (cfg_grades cc'); [discriminate | now apply (IH m) |].
  destruct (special_grades_of config rest) as [ms|]; [|discriminate].
  now apply (IH ms).
Qed.

Lemma save_csvs_ok (config : option Config) (courses : list string)
      (t : list Row) :
  (forall c, In c courses -> exists cc, config_at config c = Ok cc) ->
  save_csvs config courses t
  = Ok (map (fun c => (course_filename config c, to_csv (of_course c t)))
            courses).
Proof.
  induction courses as [|c rest IH]; intros H; [reflexivity|].
  simpl. destruct (H c) as [cc Hcc]; [now left|].
  unfold course_filename at 1. rewrite Hcc. cbn [bind].
  rewrite IH by (intros c' Hin; apply H; now right). reflexivity.
Qed.

(** The output of a run that completes, over course entries that
    carry the four keys that line 189 reads. *)
Lemma main_ok (set_0_ncn : bool) (listing : list string)
      (read_csv : string -> list RawRow) (cfg : config_file) (out : Output) :
  main set_0_ncn listing read_csv cfg = Ok out
  <-> exists file config t,
      opening listing = Ok file
      /\ load_config cfg = Ok config
      /\ graded set_0_ncn config (read_csv file) = Ok t
      /\ NoDup (map uid (remove_withdrawn t))
      /\ out = mkOutput file
                 (print_all_stats (courses_of (read_csv file))
                                  (remove_withdrawn t))
                 (print_pxs (remove_withdrawn t))
                 (map (fun c =>
                         (course_filename config c,
                          to_csv (of_course c (map interim_row
                                                   (remove_withdrawn t)))))
                      (courses_of (read_csv file))).
Proof.
  split.
  - intros H.
    destruct (main_stages _ _ _ _ _ H)
      as (file & config & t & t' & Hopen & Hcfg & Hgr & Hint & Hsave
          & Hopened & Hstats & Hpxs).
    exists file, config, t.
    pose proof (copy_interim_ok_unique _ _ Hint) as Hnd.
    rewrite (copy_interim_distinct _ Hnd) in Hint. injection Hint as <-.
    rewrite save_csvs_ok in Hsave.
    + injection Hsave as Hsaved.
      repeat (split; [assumption|]).
      destruct out as [o s p f]. simpl in *. now subst.
    + apply graded_ok in Hgr. destruct Hgr as (m & Hm & _).
      intros c Hc. exact (special_grades_of_configured _ _ m c Hm Hc).
  - intros (file & config & t & Hopen & Hcfg & Hgr & Hnd & ->).
    unfold main. rewrite Hopen. cbn [bind]. rewrite Hcfg. cbn [bind].
    rewrite Hgr. cbn [bind].
    rewrite (copy_interim_distinct _ Hnd). cbn [bind].
    rewrite save_csvs_ok; [reflexivity|].
    apply graded_ok in Hgr. destruct Hgr as (m & Hm & _).
    intros c Hc. exact (special_grades_of_configured _ _ m c Hm Hc).
Qed.

(** On a label of the index, line 178-179 can only raise the
    ValueError of a repeated label. *)
Lemma at_grade_in_error (u : string) (codes : list string) (t : list Row)
      (e : exn) :
  In u (map uid t) -> at_grade_in u codes t = Raise e -> e = ValueError.
Proof.
  intros Hin. unfold at_grade_in.
  destruct (filter (has_uid u) t) as [|r [|r' l]] eqn:Hf.
  - exfalso. apply has_uid_In, existsb_exists in Hin.
    destruct Hin as (r & Hr & Hu).
    assert (Hrf : In r (filter (has_uid u) t)) by (apply filter_In; now split).
    rewrite Hf in Hrf. destruct Hrf.
  - discriminate.
  - intros H. now injection H.
Qed.

Lemma copy_interim_from_error (index : list string) (t : list Row) (e : exn) :
  incl index (map uid t) -> copy_interim_from index t = Raise e ->
  e = ValueError.
Proof.
  revert t. induction index as [|v rest IH]; intros t Hincl H; [discriminate|].
  cbn [copy_interim_from] in H.
  destruct (at_grade_in v interim_codes t) as [g|e'] eqn:Hg; cbn [bind] in H.
  - destruct g as [code|].
    + apply (IH (at_set_mark v (Str code) t)); [|exact H].
      rewrite map_uid_at_set_mark. intros x Hx. apply Hincl. now right.
    + apply (IH t); [|exact H]. intros x Hx. apply Hincl. now right.
  - injection H as <-.
    apply (at_grade_in_error v interim_codes t); [|exact Hg].
    apply Hincl. now left.
Qed.

(** Under a uid that labels two rows the loop of lines 177-180 stops on
    the ValueError of line 179. *)
Lemma copy_interim_repeated (t : list Row) (u : string) :
  (2 <= count_occ string_dec (map uid t) u)%nat ->
  copy_interim t = Raise ValueError.
Proof.
  intros Hu. destruct (copy_interim t) as [t'|e] eqn:H.
  - exfalso.
    apply (copy_interim_from_repeated (map uid t) t u) with (t' := t');
      [|exact Hu | exact H].
    apply (count_occ_In string_dec). lia.
  - f_equal. apply (copy_interim_from_error (map uid t) t);
      [apply incl_refl | exact H].
Qed.

(** X5.  A student who is in the frame twice and is not withdrawn
    stops the run at the interim codes.  When the export is found, the
    configuration file is there, the frame gets past the integer
    coercion of lines 126-127, and some uid labels two or more of the
    rows that the withdrawal filter leaves, then the statistics of
    lines 158-161 are printed, the loop of lines 177-180 raises
    ValueError, and the run ends on that error: no file is written. *)
Theorem X5_repeated_uid_stops_run
        (set_0_ncn : bool) (listing : list string)
        (read_csv : string -> list RawRow) (cfg : config_file)
        (file : string) (config : option Config) (t : list Row)
        (u : string) :
  opening listing = Ok file ->
  load_config cfg = Ok config ->
  graded set_0_ncn config (read_csv file) = Ok t ->
  (2 <= count_occ string_dec (map uid (remove_withdrawn t)) u)%nat ->
  printed_stats set_0_ncn listing read_csv cfg
  = Ok (print_all_stats (courses_of (read_csv file)) (remove_withdrawn t))
  /\ copy_interim (remove_withdrawn t) = Raise ValueError
  /\ main set_0_ncn listing read_csv cfg = Raise ValueError.
Proof.
  intros Hopen Hcfg Hgr Hu.
  pose proof (copy_interim_repeated _ _ Hu) as Hint.
  split; [|split; [exact Hint|]].
  - unfold printed_stats. rewrite Hopen. cbn [bind]. rewrite Hcfg. cbn [bind].
    rewrite Hgr. reflexivity.
  - unfold main. rewrite Hopen. cbn [bind]. rewrite Hcfg. cbn [bind].
    rewrite Hgr. cbn [bind]. rewrite Hint. reflexivity.
Qed.

Lemma X5_repeated_uid_stops_run_witness :
  printed_stats false sample_listing (fun _ => [jane; jane])
                (ConfigParsed plain_config)
  = Ok (print_all_stats (courses_of [jane; jane])
                        (remove_withdrawn (add_grades false [jane; jane])))
  /\ copy_interim (remove_withdrawn (add_grades false [jane; jane]))
     = Raise ValueError
  /\ main false sample_listing (fun _ => [jane; jane])
          (ConfigParsed plain_config)
     = Raise ValueError.
Proof.
  apply (X5_repeated_uid_stops_run false sample_listing
           (fun _ => [jane; jane]) (ConfigParsed plain_config)
           "grades_for_SAS.csv" (Some plain_config)
           (add_grades false [jane; jane]) "u1234567").
  - reflexivity.
  - reflexivity.
  - reflexivity.
  - vm_compute. apply le_n.
Defined.

(** ** What the files hold *)

Lemma filter_map_comm {A B : Type} (p : B -> bool) (f : A -> B)
      (l : list A) :
  filter p (map f l) = map f (filter (fun x => p (f x)) l).
Proof.
  induction l as [|a l IH]; simpl; [reflexivity|].
  destruct (p (f a)); simpl; now rewrite IH.
Qed.

Lemma of_course_interim (c : string) (t : list Row) :
  of_course c (map interim_row t) = map interim_row (of_course c t).
Proof.
  unfold of_course. rewrite filter_map_comm. f_equal.
  apply filter_ext. intros r. unfold in_course, interim_row.
  now destruct (str_in (grade r) interim_codes).
Qed.

Lemma export_line_interim (r : Row) :
  join "," (csv_cols (interim_row r)) = export_line r.
Proof.
  unfold export_line, interim_row.
  now destruct (str_in (grade r) interim_codes).
Qed.

Lemma to_csv_interim (c : string) (t : list Row) :
  to_csv (of_course c (map interim_row t))
  = join "," header :: map export_line (of_course c t).
Proof.
  rewrite of_course_interim. unfold to_csv. rewrite map_map. f_equal.
  apply map_ext. intros r. apply export_line_interim.
Qed.

(** X6.  A run that completes writes one file per course of the
    export, in the order of the courses, named after the course's
    configuration entry; the file holds the header line and then, in
    the order of the export, one line for each row of the course that
    is not withdrawn: student number, mark or, for an interim grade,
    the grade code in its place, grade, first name, last name and
    course code. *)
Theorem X6_saved_files
        (set_0_ncn : bool) (listing : list string)
        (read_csv : string -> list RawRow) (cfg : config_file)
        (out : Output) :
  main set_0_ncn listing read_csv cfg = Ok out ->
  exists file config t,
    opening listing = Ok file
    /\ load_config cfg = Ok config
    /\ graded set_0_ncn config (read_csv file) = Ok t
    /\ saved out
       = map (fun c =>
                (course_filename config c,
                 "uid,mark,grade,firstname,surname,course"
                 :: map export_line (of_course c (remove_withdrawn t))))
             (courses_of (read_csv file)).
Proof.
  intros H. apply main_ok in H.
  destruct H as (file & config & t & H1 & H2 & H3 & _ & ->).
  exists file, config, t. repeat (split; [assumption|]).
  cbn [saved]. apply map_ext. intros c. now rewrite to_csv_interim.
Qed.

Lemma X6_saved_files_witness :
  exists out file config t,
    main false sample_listing (fun _ => [jane; mary])
         (ConfigParsed plain_config) = Ok out
    /\ opening sample_listing = Ok file
    /\ load_config (ConfigParsed plain_config) = Ok config
    /\ graded false config [jane; mary] = Ok t
    /\ saved out
       = map (fun c =>
                (course_filename config c,
                 "uid,mark,grade,firstname,surname,course"
                 :: map export_line (of_course c (remove_withdrawn t))))
             (courses_of [jane; mary]).
Proof.
  eexists.
  assert (Hrun : main false sample_listing (fun _ => [jane; mary])
                      (ConfigParsed plain_config) = Ok ?[out])
    by (vm_compute; reflexivity).
  destruct (X6_saved_files _ _ _ _ _ Hrun) as (file & config & t & H).
  exists file, config, t. split; [exact Hrun | exact H].
Defined.

Example saved_files_sample :
  exists out,
    main false sample_listing (fun _ => [jane; mary])
         (ConfigParsed plain_config) = Ok out
    /\ saved out
       = [("3430-COMP-1100-4567.csv",
           ["uid,mark,grade,firstname,surname,course";
            "1234567,82,HD,Jane,Doe,COMP1100";
            "2345678,PX,PX,Mary,Major,COMP1100"])].
Proof. eexists. split; [vm_compute; reflexivity | reflexivity]. Qed.

(** ** No row lost, none written twice *)

Lemma of_course_split (c : string) (cs : list string) (t : list Row) :
  ~ In c cs ->
  len (filter (fun r => match course_code r with
                        | Some c' => str_in c' (c :: cs)
                        | None => false
                        end) t)
  = len (of_course c t)
    + len (filter (fun r => match course_code r with
                            | Some c' => str_in c' cs
                            | None => false
                            end) t).
Proof.
  intros Hc. unfold len, of_course.
  induction t as [|r t IH]; [reflexivity|].
  cbn [filter]. unfold in_course at 1.
  destruct (course_code r) as [c'|]; [|exact IH].
  change (str_in c' (c :: cs)) with (String.eqb c' c || str_in c' cs)%bool.
  destruct (String.eqb_spec c' c) as [->|Hne]; cbn [orb].
  - assert (str_in c cs = false) as ->.
    { apply not_true_iff_false. intros H. now apply str_in_In in H. }
    cbn [length]. lia.
  - destruct (str_in c' cs); cbn [length]; lia.
Qed.

Lemma courses_partition (cs : list string) (t : list Row) :
  NoDup cs ->
  (forall r, In r t -> exists c, course_code r = Some c /\ In c cs) ->
  fold_right (fun c acc => len (of_course c t) + acc) 0 cs = len t.
Proof.
  intros Hnd Hall.
  assert (Hsum : fold_right (fun c acc => len (of_course c t) + acc) 0 cs
                 = len (filter (fun r => match course_code r with
                                         | Some c' => str_in c' cs
                                         | None => false
                                         end) t)).
  { clear Hall. induction Hnd as [|c cs Hnotin Hnd IH]; simpl.
    - unfold len. rewrite filter_none; [reflexivity|].
      intros r _. now destruct (course_code r).
    - rewrite IH. symmetry. now apply of_course_split. }
  rewrite Hsum. f_equal. apply forallb_filter_id.
  apply forallb_forall. intros r Hr.
  destruct (Hall r Hr) as (c & -> & Hc). now apply str_in_In.
Qed.

Lemma graded_courses (set_0_ncn : bool) (config : option Config)
      (raw : list RawRow) (t : list Row) (r : Row) :
  graded set_0_ncn config raw = Ok t -> In r t ->
  exists c, course_code r = Some c /\ In c (courses_of raw).
Proof.
  intros Hgr Hr. apply graded_ok in Hgr. destruct Hgr as (m & _ & _ & ->).
  apply in_map_iff in Hr. destruct Hr as (r0 & <- & Hr0).
  rewrite (proj2 (proj2 (proj2 (proj2 (proj2 (overridden_columns m r0)))))).
  now destruct (add_grades_complete _ _ _ Hr0) as (_ & _ & H).
Qed.

Lemma exported_rows_courses (name : string -> string) (cs : list string)
      (t : list Row) :
  exported_rows
    (map (fun c => (name c, to_csv (of_course c (map interim_row t)))) cs)
  = fold_right (fun c acc => len (of_course c t) + acc) 0 cs.
Proof.
  unfold exported_rows. induction cs as [|c cs IH]; [reflexivity|].
  cbn [map fold_right snd]. rewrite IH. f_equal.
  rewrite of_course_interim. unfold to_csv, len.
  cbn [length]. rewrite !length_map. lia.
Qed.

(** X7.  In a run that completes, every row that is not withdrawn is
    in the statistics of exactly one course and on exactly one data
    line of the files: the enrolments of the courses add up to the
    enrolment of all cohorts, and so do the data lines written, both
    being the rows of the frame less the WD and the WN rows. *)
Theorem X7_rows_partitioned_by_course
        (set_0_ncn : bool) (listing : list string)
        (read_csv : string -> list RawRow) (cfg : config_file)
        (out : Output) :
  main set_0_ncn listing read_csv cfg = Ok out ->
  exists file config t all per_course,
    opening listing = Ok file
    /\ load_config cfg = Ok config
    /\ graded set_0_ncn config (read_csv file) = Ok t
    /\ stats out = all :: per_course
    /\ enrolment all = len t - count_grade "WD" t - count_grade "WN" t
    /\ fold_right (fun s acc => enrolment s + acc) 0 per_course
       = enrolment all
    /\ exported_rows (saved out) = enrolment all.
Proof.
  intros H. apply main_ok in H.
  destruct H as (file & config & t & H1 & H2 & H3 & _ & ->).
  exists file, config, t. eexists. eexists.
  repeat (split; [eassumption|]). split; [reflexivity|].
  assert (Hpart :
    fold_right (fun c acc => len (of_course c (remove_withdrawn t)) + acc) 0
               (courses_of (read_csv file))
    = len (remove_withdrawn t)).
  { apply courses_partition; [apply unique_NoDup|].
    intros r Hr. apply (graded_courses _ _ _ _ r H3).
    now apply remove_withdrawn_grades in Hr. }
  cbn [enrolment print_stats saved]. split; [apply len_remove_withdrawn|].
  split.
  - rewrite <- Hpart. clear.
    induction (courses_of (read_csv file)) as [|c cs IH]; [reflexivity|].
    cbn [map fold_right enrolment print_stats]. now rewrite IH.
  - rewrite exported_rows_courses. exact Hpart.
Qed.

Lemma X7_rows_partitioned_by_course_witness :
  exists out file config t all per_course,
    main false sample_listing (fun _ => [jane; mary; john])
         (ConfigParsed
            [("COMP1100", comp 1100 4567 (GradesMap [("u2345678", "WD")]));
             ("COMP2100", comp 2100 4568 GradesNone)]) = Ok out
    /\ opening sample_listing = Ok file
    /\ load_config
         (ConfigParsed
            [("COMP1100", comp 1100 4567 (GradesMap [("u2345678", "WD")]));
             ("COMP2100", comp 2100 4568 GradesNone)]) = Ok config
    /\ graded false config [jane; mary; john] = Ok t
    /\ stats out = all :: per_course
    /\ enrolment all = len t - count_grade "WD" t - count_grade "WN" t
    /\ fold_right (fun s acc => enrolment s + acc) 0 per_course
       = enrolment all
    /\ exported_rows (saved out) = enrolment all.
Proof.
  eexists.
  assert (Hrun :
    main false sample_listing (fun _ => [jane; mary; john])
         (ConfigParsed
            [("COMP1100", comp 1100 4567 (GradesMap [("u2345678", "WD")]));
             ("COMP2100", comp 2100 4568 GradesNone)]) = Ok ?[out])
    by (vm_compute; reflexivity).
  destruct (X7_rows_partitioned_by_course _ _ _ _ _ Hrun)
    as (file & config & t & all & per_course & H).
  exists file, config, t, all, per_course. split; [exact Hrun | exact H].
Defined.

(** ** The grade deriver, the course code and the uid *)

(** X8.  The deriver is monotone: a higher mark never gets a lower
    band, in the order N = NCN < PX < P < CR < D < HD, on all integer
    marks and under either setting of the zero flag. *)
Theorem X8_generate_grade_monotone (set_0_ncn : bool) (m m' : Z) :
  m <= m' ->
  grade_rank (generate_grade set_0_ncn m)
  <= grade_rank (generate_grade set_0_ncn m').
Proof.
  intros H. unfold generate_grade.
  leb_cases; destruct set_0_ncn; cbv; intros E; discriminate E.
Qed.

Lemma X8_generate_grade_monotone_witness :
  grade_rank (generate_grade true 0) <= grade_rank (generate_grade true 45).
Proof. apply X8_generate_grade_monotone. lia. Defined.



Lemma str_int_inj (n m : Z) : str_int n = str_int m -> n = m.
Proof.
  unfold str_int. intros H. apply DecimalZ.to_int_inj.
  assert (Hnn : forall z, Z.to_int z <> Decimal.Pos Decimal.Nil
                          /\ Z.to_int z <> Decimal.Neg Decimal.Nil).
  { intros [|p|p]; simpl; split; try discriminate; intros E;
      injection E as E; now apply DecimalPos.Unsigned.to_uint_nonnil in E. }
  assert (Hsome : Some (Z.to_int n) = Some (Z.to_int m)).
  { rewrite <- (NilZero.isi (Z.to_int n)) by apply Hnn.
    rewrite <- (NilZero.isi (Z.to_int m)) by apply Hnn.
    now rewrite H. }
  now injection Hsome.
Qed.

Lemma uid_of_inj (n m : Z) : uid_of n = uid_of m -> n = m.
Proof.
  unfold uid_of. simpl. intros H. injection H as H. now apply str_int_inj.
Qed.

Lemma NoDup_map_inj {A B : Type} (f : A -> B) (l : list A) :
  (forall x y, f x = f y -> x = y) -> NoDup (map f l) <-> NoDup l.
Proof.
  intros Hinj. induction l as [|a l IH]; simpl.
  - split; constructor.
  - split; intros H; inversion H as [|x xs Hnotin Hnd]; subst;
      constructor; try (now apply IH).
    + intros Hin. apply Hnotin. now apply in_map.
    + intros Hin. apply in_map_iff in Hin. destruct Hin as (y & E & Hy).
      apply Hinj in E. now subst.
Qed.

(** X10.  The uid [u<number>] determines the student number, so the
    index of the frame has a repeated label exactly when a student
    number occurs twice in the export. *)
Theorem X10_uids_distinct_iff (set_0_ncn : bool) (raw : list RawRow) :
  (forall n m, uid_of n = uid_of m -> n = m)
  /\ (NoDup (map uid (add_grades set_0_ncn raw))
      <-> NoDup (map Student_Number raw)).
Proof.
  split; [apply uid_of_inj|].
  rewrite add_grades_uids. unfold raw_uids.
  rewrite <- (map_map Student_Number uid_of).
  apply NoDup_map_inj, uid_of_inj.
Qed.

(** ** What the grade report adds up to *)

Lemma count_grade_cons (g : string) (r : Row) (df : list Row) :
  count_grade g (r :: df)
  = (if grade_is g r then 1 else 0) + count_grade g df.
Proof.
  unfold count_grade. cbn [filter].
  destruct (grade_is g r); cbn [length]; lia.
Qed.

Lemma counts_cons (labels : list string) (r : Row) (df : list Row) :
  NoDup labels ->
  fold_right (fun g acc => count_grade g (r :: df) + acc) 0 labels
  = (if str_in (grade r) labels then 1 else 0)
    + fold_right (fun g acc => count_grade g df + acc) 0 labels.
Proof.
  induction 1 as [|g labels Hnotin Hnd IH]; [reflexivity|].
  cbn [fold_right]. rewrite IH, count_grade_cons.
  change (str_in (grade r) (g :: labels))
    with (String.eqb (grade r) g || str_in (grade r) labels)%bool.
  unfold grade_is. destruct (String.eqb_spec (grade r) g) as [E|_];
    cbn [orb]; [|lia].
  assert (str_in (grade r) labels = false) as ->; [|lia].
  apply not_true_iff_false. intros Hin. apply str_in_In in Hin.
  now rewrite E in Hin.
Qed.

Lemma stat_labels_NoDup : NoDup stat_labels.
Proof.
  unfold stat_labels.
  repeat (constructor;
          [simpl; intros H;
           repeat (destruct H as [H | H]; [discriminate H|]); exact H|]).
  constructor.
Qed.

(** X11.  The counts of the grade report add up to the number of rows
    whose grade is one of its twelve labels: each such row is counted
    once, and a row with any other code (a PS from the configuration,
    say) is in the enrolment but in no line of the report. *)
Theorem X11_listed_counts_total (df : list Row) :
  listed_total df
  = len (filter (fun r => str_in (grade r) stat_labels) df)
  /\ listed_total df <= len df
  /\ (listed_total df = len df
      <-> forall r, In r df -> In (grade r) stat_labels).
Proof.
  assert (Htot : listed_total df
                 = len (filter (fun r => str_in (grade r) stat_labels) df)).
  { unfold listed_total. induction df as [|r df IH].
    - unfold len. simpl. reflexivity.
    - rewrite (counts_cons _ _ _ stat_labels_NoDup), IH.
      unfold len. cbn [filter].
      destruct (str_in (grade r) stat_labels); cbn [length]; lia. }
  split; [exact Htot|]. rewrite Htot. unfold len.
  pose proof (filter_length_le (fun r => str_in (grade r) stat_labels) df)
    as Hle.
  split; [lia|]. split.
  - intros E r Hr. apply str_in_In.
    assert (Hall : forallb (fun r => str_in (grade r) stat_labels) df = true).
    { clear -E. induction df as [|a df IH]; [reflexivity|].
      cbn [filter forallb] in *.
      pose proof (filter_length_le
                    (fun r => str_in (grade r) stat_labels) df) as Hle.
      destruct (str_in (grade a) stat_labels); cbn [length andb] in *.
      - apply IH. lia.
      - lia. }
    now apply (proj1 (forallb_forall _ _) Hall).
  - intros Hall. f_equal. f_equal. apply forallb_filter_id.
    apply forallb_forall. intros r Hr. now apply str_in_In, Hall.
Qed.

(** X12.  In a cohort of fewer than [2^38] rows the percentage printed
    for a label lies between 0.00 and 100.00, and a label that every
    row carries is printed as 100.00. *)
Theorem X12_percentage_range (g : string) (df : list Row) :
  len df < 2 ^ 38 ->
  0 < count_grade g df ->
  0 <= hundredths (percent g df) <= 10000
  /\ (count_grade g df = len df -> percentage g df = "100.00").
Proof.
  intros Hlen Hpos.
  pose proof (count_grade_le_len g df) as Hle.
  pose proof (percent_nearest (count_grade g df) (len df) Hpos
                              (proj2 Hle) Hlen) as Hnear.
  fold (percent g df) in Hnear.
  set (h := hundredths (percent g df)) in *.
  set (c := count_grade g df) in *. set (t := len df) in *.
  assert (Hrange : 0 <= h <= 10000) by nia.
  split; [exact Hrange|]. intros E.
  unfold percentage, format_2f. fold h.
  assert (h = 10000) as -> by nia. reflexivity.
Qed.

Lemma X12_percentage_range_witness :
  0 <= hundredths (percent "HD" (add_grades false [jane])) <= 10000
  /\ (count_grade "HD" (add_grades false [jane])
      = len (add_grades false [jane]) ->
      percentage "HD" (add_grades false [jane]) = "100.00").
Proof. apply X12_percentage_range; reflexivity. Defined.

(** ** The PX review *)

Lemma graded_uid_number (set_0_ncn : bool) (config : option Config)
      (raw : list RawRow) (t : list Row) (r : Row) :
  graded set_0_ncn config raw = Ok t -> In r t ->
  exists n, number r = Some n /\ uid r = uid_of n.
Proof.
  intros Hgr Hr. apply graded_ok in Hgr. destruct Hgr as (m & _ & _ & ->).
  apply in_map_iff in Hr. destruct Hr as (r0 & <- & Hr0).
  destruct (overridden_columns m r0) as (Hu & Hn & _).
  rewrite Hu, Hn.
  now destruct (add_grades_complete _ _ _ Hr0) as (H & _).
Qed.

(** X13.  In a run that completes, the PX review reports nothing
    exactly when no row left by the withdrawal filter is graded PX;
    otherwise it lists those rows, in the order of the export, each
    with the address made of its uid and [@anu.edu.au]. *)
Theorem X13_px_review
        (set_0_ncn : bool) (listing : list string)
        (read_csv : string -> list RawRow) (cfg : config_file)
        (out : Output) :
  main set_0_ncn listing read_csv cfg = Ok out ->
  exists file config t,
    opening listing = Ok file
    /\ load_config cfg = Ok config
    /\ graded set_0_ncn config (read_csv file) = Ok t
    /\ (pxs out = None <-> count_grade "PX" (remove_withdrawn t) = 0)
    /\ forall rows addresses,
        pxs out = Some (rows, addresses) ->
        rows = filter (grade_is "PX") (remove_withdrawn t)
        /\ addresses = map (fun r => uid r ++ "@anu.edu.au") rows.
Proof.
  intros H. apply main_ok in H.
  destruct H as (file & config & t & H1 & H2 & H3 & _ & ->).
  exists file, config, t. repeat (split; [assumption|]).
  cbn [pxs]. unfold print_pxs, count_grade.
  assert (Haddr : forall r, In r (filter (grade_is "PX") (remove_withdrawn t))
                    -> px_address r = uid r ++ "@anu.edu.au").
  { intros r Hr. apply filter_In in Hr. destruct Hr as [Hr _].
    apply remove_withdrawn_grades in Hr. destruct Hr as [Hr _].
    destruct (graded_uid_number _ _ _ _ r H3 Hr) as (n & Hn & Hu).
    unfold px_address. rewrite Hn, Hu. reflexivity. }
  destruct (filter (grade_is "PX") (remove_withdrawn t)) as [|r rows] eqn:Hf.
  - split; [split; reflexivity|]. intros rows addresses E. discriminate E.
  - split.
    + split; [discriminate|]. cbn [length]. lia.
    + intros rows' addresses E. injection E as <- <-.
      split; [reflexivity|].
      change (map px_address (r :: rows)
              = map (fun r => uid r ++ "@anu.edu.au") (r :: rows)).
      now apply map_ext_in.
Qed.

Lemma X13_px_review_witness :
  exists out file config t,
    main false sample_listing (fun _ => [jane; mary])
         (ConfigParsed plain_config) = Ok out
    /\ opening sample_listing = Ok file
    /\ load_config (ConfigParsed plain_config) = Ok config
    /\ graded false config [jane; mary] = Ok t
    /\ (pxs out = None <-> count_grade "PX" (remove_withdrawn t) = 0)
    /\ forall rows addresses,
        pxs out = Some (rows, addresses) ->
        rows = filter (grade_is "PX") (remove_withdrawn t)
        /\ addresses = map (fun r => uid r ++ "@anu.edu.au") rows.
Proof.
  eexists.
  assert (Hrun : main false sample_listing (fun _ => [jane; mary])
                      (ConfigParsed plain_config) = Ok ?[out])
    by (vm_compute; reflexivity).
  destruct (X13_px_review _ _ _ _ _ Hrun) as (file & config & t & H).
  exists file, config, t. split; [exact Hrun | exact H].
Defined.
